(** * The Yggdrasil connection dialer (src/yggdrasil/dialer.go)

    A shallow embedding of [Dialer.Dial], [Dialer.DialContext],
    [Dialer.DialByNodeIDandMask] and [Dialer.DialByPublicKey], together with
    the parts of the Go standard library they call ([hex.DecodeString],
    [strconv.Atoi], [strings.Split], [context.WithTimeout]).

    Conventions.
    - A Go [string] is a [string] of 8-bit characters; a Go [byte] is a [Z]
      in [0, 256); a byte array or slice is a [list Z].
    - [time.Time] and [time.Duration] are [Z], counted in nanoseconds.  The
      clock advances only where the code blocks (the search and the
      [select]); the statements in between take no time.
    - A Go function returning [(net.Conn, error)] is a computation [M Conn]
      over the [World]: it returns a connection, fails with an [error], or
      panics, and it appends what it did to the collaborators to the
      world's trace. *)

From Stdlib Require Import ZArith Lia Bool Ascii String List.
From stdpp Require Import base list.
Import ListNotations.

Local Open Scope Z_scope.

(** ** Errors *)

(** The error values the dialer can return, by the place that creates them. *)
Inductive error : Type :=
| InvalidByteError (c : ascii)          (* encoding/hex: invalid byte *)
| ErrLength                             (* encoding/hex: odd length hex string *)
| ErrSyntax (s : string)                (* strconv.NumError with strconv.ErrSyntax *)
| ErrRange (s : string)                 (* strconv.NumError with strconv.ErrRange *)
| ErrInvalidKeyLength                   (* errors.New("invalid key length supplied") *)
| ErrUnexpectedAddressType (network : string)
                                        (* fmt.Errorf("unexpected address type %q", network) *)
| ErrSearch (cause : string)            (* whatever conn.search() returned *)
| ErrSessionHandshakeTimeout.           (* errors.New("session handshake timeout") *)

(** The kinds of the specification's error taxonomy. *)
Inductive error_kind : Type :=
| InvalidAddress
| UnsupportedScheme
| SearchFailed
| HandshakeTimedOut.

Definition kind_of (e : error) : error_kind :=
  match e with
  | InvalidByteError _ | ErrLength | ErrSyntax _ | ErrRange _
  | ErrInvalidKeyLength => InvalidAddress
  | ErrUnexpectedAddressType _ => UnsupportedScheme
  | ErrSearch _ => SearchFailed
  | ErrSessionHandshakeTimeout => HandshakeTimedOut
  end.

(** A value or an error, for the library functions that return [(T, error)]. *)
Inductive res (A : Type) : Type :=
| Ok (a : A)
| Err (e : error).
Arguments Ok {A} a.
Arguments Err {A} e.

Definition byte_of_ascii (c : ascii) : Z := Z.of_N (N_of_ascii c).

(** ** encoding/hex *)

Module hex.

(** [reverseHexTable]: the value of a hexadecimal digit, [None] where the
    table holds 0xff. *)
Definition fromHexChar (c : ascii) : option Z :=
  let n := byte_of_ascii c in
  if (48 <=? n) && (n <=? 57) then Some (n - 48)
  else if (97 <=? n) && (n <=? 102) then Some (n - 87)
  else if (65 <=? n) && (n <=? 70) then Some (n - 55)
  else None.

(** [hex.Decode], two characters at a time; a trailing single character
    is reported as an invalid byte before the bad length. *)
Fixpoint Decode (src : string) : res (list Z) :=
  match src with
  | EmptyString => Ok []
  | String p EmptyString =>
      match fromHexChar p with
      | None => Err (InvalidByteError p)
      | Some _ => Err ErrLength
      end
  | String p (String q rest) =>
      match fromHexChar p with
      | None => Err (InvalidByteError p)
      | Some a =>
          match fromHexChar q with
          | None => Err (InvalidByteError q)
          | Some b =>
              match Decode rest with
              | Ok bs => Ok (Z.lor (Z.shiftl a 4) b :: bs)
              | Err e => Err e
              end
          end
      end
  end.

Definition DecodeString (s : string) : res (list Z) := Decode s.

End hex.

(** ** strconv *)

Module strconv.

Definition maxUint64 : Z := 2 ^ 64 - 1.
Definition intSize : Z := 64.

Definition digit (c : ascii) : option Z :=
  let n := byte_of_ascii c in
  if (48 <=? n) && (n <=? 57) then Some (n - 48) else None.

(** The digit loop of [ParseUint s 10 64], from the accumulator [n]:
    [None] is a syntax error, [Some None] a range error. *)
Fixpoint parseDigits (s : string) (n : Z) : option (option Z) :=
  match s with
  | EmptyString => Some (Some n)
  | String c rest =>
      match digit c with
      | None => None
      | Some d =>
          if maxUint64 / 10 + 1 <=? n then Some None
          else
            let n1 := n * 10 + d in
            if maxUint64 <? n1 then Some None else parseDigits rest n1
      end
  end.

(** [strconv.Atoi]: an optional sign, then decimal digits, in the range
    of [int]. The fast path for short strings computes the same value. *)
Definition Atoi (s0 : string) : res Z :=
  match s0 with
  | EmptyString => Err (ErrSyntax s0)
  | String c rest =>
      let neg := Ascii.eqb c "-" in
      let s := if neg || Ascii.eqb c "+" then rest else s0 in
      match s with
      | EmptyString => Err (ErrSyntax s0)
      | _ =>
          match parseDigits s 0 with
          | None => Err (ErrSyntax s0)
          | Some None => Err (ErrRange s0)
          | Some (Some un) =>
              let cutoff := 2 ^ (intSize - 1) in
              if negb neg && (cutoff <=? un) then Err (ErrRange s0)
              else if neg && (cutoff <? un) then Err (ErrRange s0)
              else Ok (if neg then - un else un)
          end
      end
  end.

End strconv.

(** ** strings *)

Module strings.

(** [strings.Split s sep] for a separator of one byte: the pieces of [s]
    between the separators, at least one piece. *)
Fixpoint Split (s : string) (sep : ascii) : list string :=
  match s with
  | EmptyString => [EmptyString]
  | String c rest =>
      if Ascii.eqb c sep then EmptyString :: Split rest sep
      else
        match Split rest sep with
        | t :: ts => String c t :: ts
        | [] => [String c EmptyString]
        end
  end.

End strings.

Example Split_ex : strings.Split "ab/12/" "/" = ["ab"; "12"; ""]%string.
Proof. reflexivity. Qed.
Example Atoi_ex : strconv.Atoi "-12" = Ok (-12).
Proof. reflexivity. Qed.
Example Atoi_ex2 : strconv.Atoi "9223372036854775808" = Err (ErrRange "9223372036854775808").
Proof. reflexivity. Qed.
Example Decode_ex : hex.DecodeString "aB0f" = Ok [171; 15].
Proof. reflexivity. Qed.

(** ** time and context *)

Module time.

(** [time.Second], in nanoseconds. *)
Definition Second : Z := 1000000000.

End time.

Module context.

(** What the dialer can observe of a [context.Context]: its deadline, if
    it has one, and the moment its owner cancels it, if ever. *)
Record Context : Type := mkContext {
  Deadline : option Z;
  cancelled_at : option Z
}.

Definition Background : Context :=
  {| Deadline := None; cancelled_at := None |}.

(** [context.WithDeadline parent d]: the parent's deadline is kept when it
    is already sooner than [d]; cancelling the parent cancels the child. *)
Definition WithDeadline (parent : Context) (d : Z) : Context :=
  match Deadline parent with
  | Some cur =>
      if cur <? d then parent
      else {| Deadline := Some d; cancelled_at := cancelled_at parent |}
  | None => {| Deadline := Some d; cancelled_at := cancelled_at parent |}
  end.

(** [context.WithTimeout parent timeout], called at time [now]. *)
Definition WithTimeout (parent : Context) (now timeout : Z) : Context :=
  WithDeadline parent (now + timeout).

(** The moment the [Done] channel of the context is closed; [None] is
    never. *)
Definition Done_at (c : Context) : option Z :=
  match Deadline c, cancelled_at c with
  | Some d, Some k => Some (Z.min d k)
  | Some d, None => Some d
  | None, Some k => Some k
  | None, None => None
  end.

End context.

(** ** The world of a dial *)

(** [crypto.NodeID] and [crypto.BoxPubKey] are byte arrays. *)
Definition NodeID : Type := list Z.
Definition BoxPubKey : Type := list Z.

(** A [Conn] as [newConn] builds it: the target it was created for. *)
Record Conn : Type := mkConn {
  conn_nodeID : NodeID;
  conn_nodeMask : NodeID
}.

(** The calls the dialer makes on its collaborators. *)
Inductive Event : Type :=
| EvNewConn (c : Conn)                  (* newConn(d.core, nodeID, nodeMask, nil) *)
| EvSearch (c : Conn)                   (* conn.search() *)
| EvClose (c : Conn)                    (* conn.Close() *)
| EvSetConn (c : Conn)                  (* conn.session.setConn(nil, conn) *)
| EvDebugln (msg : string) (dur : Z)    (* d.core.log.Debugln(...) *)
| EvCancel.                             (* the deferred cancel() *)

Record World : Type := mkWorld {
  now : Z;
  trace : list Event
}.

(** What the network does during one dial: how the search for a target
    ends and how long it takes, how long after the search the session's
    [init] channel is closed ([None]: never), and which case the [select]
    takes when both are ready. *)
Record Network : Type := mkNetwork {
  search_result : NodeID -> NodeID -> option string;
  search_took : NodeID -> NodeID -> Z;
  init_after : option Z;
  select_init_if_both : bool
}.

(** How a call ends: it returns a value, returns an error, panics, or
    blocks for ever. *)
Inductive outcome (A : Type) : Type :=
| Return (a : A)
| Fail (e : error)
| Panicked
| Blocked.
Arguments Return {A} a.
Arguments Fail {A} e.
Arguments Panicked {A}.
Arguments Blocked {A}.

Definition M (A : Type) : Type := World -> outcome A * World.

Definition ret {A} (a : A) : M A := fun w => (Return a, w).
Definition fail {A} (e : error) : M A := fun w => (Fail e, w).
Definition panic {A} : M A := fun w => (Panicked, w).

Definition bind {A B} (m : M A) (k : A -> M B) : M B :=
  fun w =>
    match m w with
    | (Return a, w') => k a w'
    | (Fail e, w') => (Fail e, w')
    | (Panicked, w') => (Panicked, w')
    | (Blocked, w') => (Blocked, w')
    end.

Notation "'do' x <- m ; k" := (bind m (fun x => k))
  (at level 10, x name, m at level 100, k at level 200).
Notation "'run' m ; k" := (bind m (fun _ => k))
  (at level 10, m at level 100, k at level 200).

Definition emit (e : Event) : M unit :=
  fun w => (Return tt, {| now := now w; trace := trace w ++ [e] |}).

Definition time_Now : M Z := fun w => (Return (now w), w).

(** [defer f(); body]: [f] runs when [body] is left, however it is left. *)
Definition defer {A} (f : M unit) (body : M A) : M A :=
  fun w => let (r, w') := body w in (r, snd (f w')).

(** The two cases of the [select] in [DialByNodeIDandMask]. *)
Inductive selected : Type :=
| SessionInit
| CtxDone.

(** A [select] over two channels that are closed at [init_at] and
    [done_at]: it blocks until one is closed and takes that case; when both
    are closed by then, the choice is not determined by the program. *)
Definition select_at (t : Z) (init_at done_at : option Z) (both : bool)
  : option (selected * Z) :=
  match init_at, done_at with
  | Some i, Some d =>
      let ti := Z.max t i in
      let td := Z.max t d in
      if ti <? td then Some (SessionInit, ti)
      else if td <? ti then Some (CtxDone, td)
      else Some (if both then SessionInit else CtxDone, ti)
  | Some i, None => Some (SessionInit, Z.max t i)
  | None, Some d => Some (CtxDone, Z.max t d)
  | None, None => None
  end.

(** ** Byte arrays *)

(** A zeroed array, as [var nodeID crypto.NodeID] declares one. *)
Definition zero_array (n : nat) : list Z := replicate n 0.

(** [copy(dst[:], src)]: as many bytes as both hold; the rest of [dst]
    stays. *)
Definition copy (dst src : list Z) : list Z :=
  take (length dst) src ++ drop (length src) dst.

(** [nodeMask[idx/8] |= 0x80 >> byte(idx%8)]; [None] is the index out of
    range panic. *)
Definition set_mask_bit (nodeMask : list Z) (idx : Z) : option (list Z) :=
  let i := Z.to_nat (idx / 8) in
  match nodeMask !! i with
  | Some b => Some (<[i := Z.lor b (Z.shiftr 128 (idx mod 8))]> nodeMask)
  | None => None
  end.

(** [for ; idx < l; idx++ { nodeMask[idx/8] |= 0x80 >> byte(idx%8) }], with
    [n] iterations left. *)
Fixpoint prefix_loop (n : nat) (idx : Z) (nodeMask : list Z) : option (list Z) :=
  match n with
  | O => Some nodeMask
  | S n' =>
      match set_mask_bit nodeMask idx with
      | None => None
      | Some nodeMask' => prefix_loop n' (idx + 1) nodeMask'
      end
  end.

(** [for i := range nodeMask { nodeMask[i] = 0xFF }]. *)
Definition fill_ones (nodeMask : list Z) : list Z :=
  fold_left (fun m i => <[i := 255]> m) (seq 0 (length nodeMask)) nodeMask.

(** Bit [i] of a mask, counted from the most significant bit of the first
    byte. *)
Definition mask_bit (m : list Z) (i : Z) : bool :=
  Z.testbit (nth (Z.to_nat (i / 8)) m 0) (7 - i mod 8).

(** ** The dialer *)

Section Dialer.

(** From package crypto, which the dialer imports. *)
Variable NodeIDLen : nat.
Variable BoxPubKeyLen : nat.
Variable GetNodeID : BoxPubKey -> NodeID.

(** The network the dialer's core is connected to. *)
Variable net : Network.

Definition newConn (nodeID nodeMask : NodeID) : M Conn :=
  let c := {| conn_nodeID := nodeID; conn_nodeMask := nodeMask |} in
  do _ <- emit (EvNewConn c); ret c.

(** [conn.search()]: blocks until the search has ended. *)
Definition conn_search (c : Conn) : M (option error) :=
  fun w =>
    (Return (option_map ErrSearch
               (search_result net (conn_nodeID c) (conn_nodeMask c))),
     {| now := now w + search_took net (conn_nodeID c) (conn_nodeMask c);
        trace := trace w ++ [EvSearch c] |}).

Definition conn_Close (c : Conn) : M unit := emit (EvClose c).
Definition session_setConn (c : Conn) : M unit := emit (EvSetConn c).
Definition log_Debugln (msg : string) (dur : Z) : M unit :=
  emit (EvDebugln msg dur).

(** [select { case <-conn.session.init: ... case <-ctx.Done(): ... }],
    entered at [endSearch], when the session was created. *)
Definition select_init_or_done (endSearch : Z) (ctx : context.Context)
  : M selected :=
  fun w =>
    match select_at (now w)
            (option_map (Z.add endSearch) (init_after net))
            (context.Done_at ctx) (select_init_if_both net) with
    | Some (s, t) => (Return s, {| now := t; trace := trace w |})
    | None => (Blocked, w)
    end.

(** [Dialer.DialByNodeIDandMask] (dialer.go, lines 84 to 111).  A nil
    [ctx] is [None]. *)
Definition DialByNodeIDandMask (ctx : option context.Context)
    (nodeID nodeMask : NodeID) : M Conn :=
  do startDial <- time_Now;
  do conn <- newConn nodeID nodeMask;
  do err <- conn_search conn;
  match err with
  | Some err =>
      run conn_Close conn;
      fail err
  | None =>
      do endSearch <- time_Now;
      run log_Debugln "Dial searched for:" (endSearch - startDial);
      run session_setConn conn;
      let ctx :=
        match ctx with
        | None => context.Background
        | Some ctx => ctx
        end in
      do timeNow <- time_Now;
      let ctx := context.WithTimeout ctx timeNow (6 * time.Second) in
      defer (emit EvCancel)
        (do s <- select_init_or_done endSearch ctx;
         match s with
         | SessionInit =>
             do endInit <- time_Now;
             run log_Debugln "Dial initialized session for:" (endInit - endSearch);
             run log_Debugln "Finished dial for:" (endInit - startDial);
             ret conn
         | CtxDone =>
             run conn_Close conn;
             fail ErrSessionHandshakeTimeout
         end)
  end.

(** [Dialer.DialByPublicKey] (lines 116 to 123). *)
Definition DialByPublicKey (ctx : option context.Context)
    (pubKey : BoxPubKey) : M Conn :=
  let nodeID := GetNodeID pubKey in
  let nodeMask := fill_ones (zero_array NodeIDLen) in
  DialByNodeIDandMask ctx nodeID nodeMask.

(** [Dialer.DialContext] (lines 31 to 79): the switch on [network], with
    the case ["http"] falling through to ["curve25519"]. *)
Definition DialContext (ctx : option context.Context)
    (network address : string) : M Conn :=
  if String.eqb network "http" || String.eqb network "curve25519" then
    match hex.DecodeString address with
    | Err err => fail err
    | Ok dest =>
        if negb (length dest =? BoxPubKeyLen)%nat then fail ErrInvalidKeyLength
        else
          let pubKey := copy (zero_array BoxPubKeyLen) dest in
          DialByPublicKey ctx pubKey
    end
  else if String.eqb network "nodeid" then
    let tokens := strings.Split address "/" in
    if (length tokens =? 2)%nat then
      match strconv.Atoi (nth 1 tokens EmptyString) with
      | Err err => fail err
      | Ok l =>
          match hex.DecodeString (nth 0 tokens EmptyString) with
          | Err err => fail err
          | Ok dest =>
              let nodeID := copy (zero_array NodeIDLen) dest in
              match prefix_loop (Z.to_nat l) 0 (zero_array NodeIDLen) with
              | None => panic
              | Some nodeMask => DialByNodeIDandMask ctx nodeID nodeMask
              end
          end
      end
    else
      match hex.DecodeString (nth 0 tokens EmptyString) with
      | Err err => fail err
      | Ok dest =>
          let nodeID := copy (zero_array NodeIDLen) dest in
          let nodeMask := fill_ones (zero_array NodeIDLen) in
          DialByNodeIDandMask ctx nodeID nodeMask
      end
  else fail (ErrUnexpectedAddressType network).

(** [Dialer.Dial] (lines 24 to 26). *)
Definition Dial (network address : string) : M Conn :=
  DialContext None network address.

End Dialer.

(** ** Notions the statements use *)

Definition is_byte (b : Z) : Prop := 0 <= b < 256.

(** The number of separators in a string, and what stands before the
    first of them. *)
Fixpoint count_sep (s : string) (sep : ascii) : nat :=
  match s with
  | EmptyString => 0
  | String c rest =>
      if Ascii.eqb c sep then S (count_sep rest sep) else count_sep rest sep
  end.

Fixpoint before_sep (s : string) (sep : ascii) : string :=
  match s with
  | EmptyString => EmptyString
  | String c rest =>
      if Ascii.eqb c sep then EmptyString else String c (before_sep rest sep)
  end.

(** [ctx] as the dial uses it: the background context when the caller gave
    none. *)
Definition default_ctx (ctx : option context.Context) : context.Context :=
  match ctx with
  | None => context.Background
  | Some c => c
  end.

(** The context of the [select]: the caller's, with the timeout of six
    seconds added when the search has ended, at [endSearch]. *)
Definition wait_ctx (ctx : option context.Context) (endSearch : Z)
  : context.Context :=
  context.WithTimeout (default_ctx ctx) endSearch (6 * time.Second).

(** The deadline as the specification words it: six seconds after the
    lookup, or the caller's deadline when that is earlier. *)
Definition effective_deadline (ctx : option context.Context) (endSearch : Z)
  : Z :=
  match context.Deadline (default_ctx ctx) with
  | None => endSearch + 6 * time.Second
  | Some d => Z.min d (endSearch + 6 * time.Second)
  end.

(** The moment the wait is given up: the deadline, or the caller's
    cancellation when that comes first. *)
Definition done_moment (ctx : option context.Context) (endSearch : Z) : Z :=
  match context.cancelled_at (default_ctx ctx) with
  | None => effective_deadline ctx endSearch
  | Some k => Z.min (effective_deadline ctx endSearch) k
  end.

(** The events of a dial up to the [select]. *)
Definition located_events (c : Conn) (took : Z) : list Event :=
  [EvNewConn c; EvSearch c; EvDebugln "Dial searched for:" took; EvSetConn c].

(** ** Counting the calls of a dial *)

Definition is_EvNewConn (e : Event) : bool :=
  match e with EvNewConn _ => true | _ => false end.
Definition is_EvSearch (e : Event) : bool :=
  match e with EvSearch _ => true | _ => false end.
Definition is_EvClose (e : Event) : bool :=
  match e with EvClose _ => true | _ => false end.
Definition is_EvSetConn (e : Event) : bool :=
  match e with EvSetConn _ => true | _ => false end.
Definition is_EvCancel (e : Event) : bool :=
  match e with EvCancel => true | _ => false end.

(** How many events of a kind a list holds. *)
Definition count_events (p : Event -> bool) (evs : list Event) : nat :=
  length (List.filter p evs).

(** A string of hexadecimal digits only. *)
Fixpoint all_hex (s : string) : bool :=
  match s with
  | EmptyString => true
  | String c rest =>
      match hex.fromHexChar c with
      | Some _ => all_hex rest
      | None => false
      end
  end.

(** ** A concrete network *)

(** Package crypto's sizes: an identifier is a SHA-512 digest, a public
    key has 32 bytes. *)
Definition crypto_NodeIDLen : nat := 64.
Definition crypto_BoxPubKeyLen : nat := 32.

(** A stand-in for [crypto.GetNodeID], of the right length. *)
Definition sample_GetNodeID (k : BoxPubKey) : NodeID :=
  take crypto_NodeIDLen (k ++ k).

(** A network in which every search succeeds after 100 ms and the
    handshake completes 50 ms later. *)
Definition sample_net : Network :=
  {| search_result := fun _ _ => None;
     search_took := fun _ _ => 100000000;
     init_after := Some 50000000;
     select_init_if_both := false |}.

Definition sample_world : World := {| now := 0; trace := [] |}.

(** A context whose deadline has passed when [sample_world] starts, and
    one that its owner cancels after 120 ms. *)
Definition sample_expired_ctx : context.Context :=
  {| context.Deadline := Some 0; context.cancelled_at := None |}.
Definition sample_cancelled_ctx : context.Context :=
  {| context.Deadline := None; context.cancelled_at := Some 120000000 |}.

(** The address of the example in the package documentation. *)
Definition doc_address : string :=
  "55071be281f50d0abbda63aadc59755624280c44b2f1f47684317aa4e0325604".

(** A network on which the session's [init] channel is closed 50 ms
    before the search ends, and a context whose deadline is 10 ms after
    [sample_world] starts. *)
Definition early_signal_net : Network :=
  {| search_result := fun _ _ => None;
     search_took := fun _ _ => 100000000;
     init_after := Some (-50000000);
     select_init_if_both := true |}.
Definition early_deadline_ctx : context.Context :=
  {| context.Deadline := Some 10000000; context.cancelled_at := None |}.

(** [DialContext] on that network. *)
Definition sample_DialContext : option context.Context -> string -> string -> M Conn :=
  DialContext crypto_NodeIDLen crypto_BoxPubKeyLen sample_GetNodeID sample_net.

(** * Properties *)

(** Linear arithmetic with division and remainder by constants. *)
Ltac div_lia := Z.div_mod_to_equations; lia.

(** ** Filling a mask with ones *)

Lemma fill_from_length (n k : nat) (m : list Z) :
  length (fold_left (fun m i => <[i := 255]> m) (seq k n) m) = length m.
Proof.
  revert k m. induction n as [|n IH]; intros k m; simpl; [done|].
  by rewrite IH, length_insert.
Qed.

Lemma fill_from_lookup (n k : nat) (m : list Z) (i : nat) :
  (k + n <= length m)%nat ->
  fold_left (fun m i => <[i := 255]> m) (seq k n) m !! i =
    if decide (k <= i < k + n)%nat then Some 255 else m !! i.
Proof.
  revert k m. induction n as [|n IH]; intros k m Hlen; simpl.
  - case_decide; [lia | done].
  - rewrite IH by (rewrite length_insert; lia).
    destruct (decide (i = k)) as [->|Hne].
    + rewrite list_lookup_insert_eq by lia.
      repeat case_decide; try lia; done.
    + rewrite list_lookup_insert_ne by done.
      repeat case_decide; try lia; done.
Qed.

Lemma fill_ones_replicate (m : list Z) :
  fill_ones m = replicate (length m) 255.
Proof.
  apply list_eq; intros i. unfold fill_ones.
  rewrite fill_from_lookup by lia.
  case_decide as Hi.
  - symmetry. apply lookup_replicate_2. lia.
  - transitivity (@None Z).
    + apply lookup_ge_None_2. lia.
    + symmetry. apply lookup_replicate_None. lia.
Qed.

Lemma fill_ones_zero_array (n : nat) :
  fill_ones (zero_array n) = replicate n 255.
Proof.
  unfold zero_array. by rewrite fill_ones_replicate, length_replicate.
Qed.

Lemma mask_bit_ones (n : nat) (i : Z) :
  0 <= i < 8 * Z.of_nat n -> mask_bit (replicate n 255) i = true.
Proof.
  intros Hi. unfold mask_bit.
  assert (Hm : 0 <= i mod 8 < 8) by (apply Z.mod_pos_bound; lia).
  assert (Hd : 0 <= i / 8 < Z.of_nat n) by div_lia.
  rewrite nth_lookup, lookup_replicate_2 by lia. simpl.
  change 255 with (Z.ones 8).
  apply Z.ones_spec_low. lia.
Qed.

(** ** The prefix loop *)

Lemma is_byte_lor (a c : Z) : is_byte a -> is_byte c -> is_byte (Z.lor a c).
Proof.
  unfold is_byte. intros Ha Hc.
  assert (E : Z.lor a c = Z.lor a c mod 2 ^ 8).
  { rewrite <- !Z.land_ones by lia. rewrite Z.land_lor_distr_l.
    rewrite !Z.land_ones by lia. by rewrite !Z.mod_small by lia. }
  rewrite E. change 256 with (2 ^ 8). apply Z.mod_pos_bound. lia.
Qed.

Lemma is_byte_bit (k : Z) : 0 <= k -> is_byte (Z.shiftr 128 k).
Proof.
  intros Hk. unfold is_byte. rewrite Z.shiftr_div_pow2 by lia.
  assert (0 < 2 ^ k) by (apply Z.pow_pos_nonneg; lia).
  split; [apply Z.div_pos; lia|].
  apply Z.le_lt_trans with 128; [|lia].
  apply Z.div_le_upper_bound; nia.
Qed.

Lemma testbit_bit (k j : Z) :
  0 <= k -> 0 <= j -> Z.testbit (Z.shiftr 128 k) j = (7 =? j + k).
Proof.
  intros Hk Hj. rewrite Z.shiftr_spec by lia.
  change 128 with (2 ^ 7). apply Z.pow2_bits_eqb. lia.
Qed.

Lemma set_mask_bit_spec (len : nat) (m : list Z) (idx : Z) :
  length m = len -> Forall is_byte m -> 0 <= idx < 8 * Z.of_nat len ->
  exists m',
    set_mask_bit m idx = Some m' /\ length m' = len /\ Forall is_byte m' /\
    forall i, 0 <= i < 8 * Z.of_nat len ->
      mask_bit m' i = mask_bit m i || (i =? idx).
Proof.
  intros Hlen Hb Hidx. unfold set_mask_bit.
  assert (Hq : 0 <= idx / 8 < Z.of_nat len) by div_lia.
  assert (Hr : 0 <= idx mod 8 < 8) by div_lia.
  destruct (lookup_lt_is_Some_2 m (Z.to_nat (idx / 8))) as [b Eb]; [lia|].
  rewrite Eb. eexists; split; [reflexivity|].
  split; [by rewrite length_insert|].
  split.
  { apply Forall_insert; [done|]. apply is_byte_lor.
    - eapply Forall_lookup_1; eauto.
    - apply is_byte_bit; lia. }
  intros i Hi. unfold mask_bit.
  assert (Hqi : 0 <= i / 8 < Z.of_nat len) by div_lia.
  assert (Hri : 0 <= i mod 8 < 8) by div_lia.
  rewrite !nth_lookup.
  destruct (decide (i / 8 = idx / 8)) as [Eq|Ne].
  - rewrite Eq, list_lookup_insert_eq, Eb by lia. simpl.
    rewrite Z.lor_spec, testbit_bit by lia. f_equal.
    apply eq_true_iff_eq. rewrite !Z.eqb_eq. div_lia.
  - rewrite list_lookup_insert_ne by lia.
    replace (i =? idx) with false; [by rewrite orb_false_r|].
    symmetry. apply Z.eqb_neq. intros ->. done.
Qed.

Lemma prefix_loop_spec (len : nat) (n : nat) (idx : Z) (m : list Z) :
  length m = len -> Forall is_byte m ->
  0 <= idx -> idx + Z.of_nat n <= 8 * Z.of_nat len ->
  (forall i, 0 <= i < 8 * Z.of_nat len -> mask_bit m i = (i <? idx)) ->
  exists m',
    prefix_loop n idx m = Some m' /\ length m' = len /\ Forall is_byte m' /\
    forall i, 0 <= i < 8 * Z.of_nat len ->
      mask_bit m' i = (i <? idx + Z.of_nat n).
Proof.
  revert idx m. induction n as [|n IH]; intros idx m Hlen Hb Hidx Hn Hbits.
  - exists m. simpl. repeat split; try done.
    intros i Hi. rewrite Hbits by done. f_equal. lia.
  - simpl prefix_loop.
    destruct (set_mask_bit_spec len m idx) as (m1 & E1 & L1 & B1 & S1);
      [done | done | lia |].
    rewrite E1.
    destruct (IH (idx + 1) m1) as (m' & E' & L' & B' & S'); try done; try lia.
    { intros i Hi. rewrite S1, Hbits by done.
      apply eq_true_iff_eq.
      rewrite orb_true_iff, !Z.ltb_lt, Z.eqb_eq. lia. }
    exists m'. repeat split; try done.
    intros i Hi. rewrite S' by done. f_equal. lia.
Qed.

Lemma mask_bit_zero (len : nat) (i : Z) : mask_bit (zero_array len) i = false.
Proof.
  unfold mask_bit, zero_array. rewrite nth_lookup.
  destruct (replicate len 0 !! Z.to_nat (i / 8)) as [b|] eqn:E; simpl.
  - apply lookup_replicate_1 in E as [-> _]. apply Z.testbit_0_l.
  - apply Z.testbit_0_l.
Qed.

Lemma zero_array_bytes (len : nat) : Forall is_byte (zero_array len).
Proof. apply Forall_replicate. unfold is_byte. lia. Qed.

(** The loop started on a zeroed mask, for a prefix that fits. *)
Lemma prefix_loop_zero (len : nat) (l : Z) :
  0 <= l <= 8 * Z.of_nat len ->
  exists m,
    prefix_loop (Z.to_nat l) 0 (zero_array len) = Some m /\
    length m = len /\ Forall is_byte m /\
    forall i, 0 <= i < 8 * Z.of_nat len -> mask_bit m i = (i <? l).
Proof.
  intros Hl.
  destruct (prefix_loop_spec len (Z.to_nat l) 0 (zero_array len))
    as (m & E & L & B & S).
  - apply length_replicate.
  - apply zero_array_bytes.
  - lia.
  - lia.
  - intros i Hi. rewrite mask_bit_zero. symmetry. apply Z.ltb_ge. lia.
  - exists m. repeat split; try done.
    intros i Hi. rewrite S by done. f_equal. lia.
Qed.

(** The loop does nothing for a count that is not positive. *)
Lemma prefix_loop_nonpositive (l : Z) (m : list Z) :
  l <= 0 -> prefix_loop (Z.to_nat l) 0 m = Some m.
Proof. intros H. by replace (Z.to_nat l) with 0%nat by lia. Qed.

Lemma prefix_loop_add (a b : nat) (idx : Z) (m : list Z) :
  prefix_loop (a + b) idx m =
    match prefix_loop a idx m with
    | Some m' => prefix_loop b (idx + Z.of_nat a) m'
    | None => None
    end.
Proof.
  revert idx m. induction a as [|a IH]; intros idx m.
  - simpl. f_equal. lia.
  - cbn [Nat.add prefix_loop]. destruct (set_mask_bit m idx) as [m1|]; [|done].
    rewrite IH. destruct (prefix_loop a (idx + 1) m1); [|done].
    f_equal. lia.
Qed.

(** The loop panics for a count above the number of bits of the mask. *)
Lemma prefix_loop_out_of_range (len : nat) (l : Z) :
  8 * Z.of_nat len < l ->
  prefix_loop (Z.to_nat l) 0 (zero_array len) = None.
Proof.
  intros H.
  replace (Z.to_nat l)
    with (Z.to_nat (8 * Z.of_nat len)
          + S (Z.to_nat (l - 8 * Z.of_nat len - 1)))%nat by lia.
  rewrite prefix_loop_add.
  destruct (prefix_loop_zero len (8 * Z.of_nat len)) as (m & E & L & _);
    [lia|].
  rewrite E. cbn [prefix_loop]. unfold set_mask_bit.
  replace (Z.to_nat ((0 + Z.of_nat (Z.to_nat (8 * Z.of_nat len))) / 8))
    with len.
  - by rewrite (lookup_ge_None_2 m len) by lia.
  - rewrite Z2Nat.id by lia. rewrite Z.add_0_l.
    rewrite (Z.mul_comm 8), Z.div_mul by lia. lia.
Qed.

(** ** Tokens of an address *)

Lemma Split_cons (s : string) (sep : ascii) :
  exists t ts, strings.Split s sep = t :: ts.
Proof.
  destruct s as [|c rest]; simpl; [by eauto|].
  destruct (Ascii.eqb c sep); [by eauto|].
  destruct (strings.Split rest sep); by eauto.
Qed.

Lemma Split_length (s : string) (sep : ascii) :
  length (strings.Split s sep) = S (count_sep s sep).
Proof.
  induction s as [|c rest IH]; simpl; [done|].
  destruct (Ascii.eqb c sep); simpl; [by rewrite IH|].
  destruct (Split_cons rest sep) as (t & ts & E).
  rewrite E in *. simpl in *. done.
Qed.

Lemma Split_first (s : string) (sep : ascii) :
  nth 0 (strings.Split s sep) EmptyString = before_sep s sep.
Proof.
  induction s as [|c rest IH]; simpl; [done|].
  destruct (Ascii.eqb c sep); simpl; [done|].
  destruct (Split_cons rest sep) as (t & ts & E).
  rewrite E in *. simpl in *. by rewrite IH.
Qed.

Lemma Split_no_sep (s : string) (sep : ascii) :
  count_sep s sep = 0%nat -> strings.Split s sep = [s].
Proof.
  induction s as [|c rest IH]; simpl; [done|].
  destruct (Ascii.eqb c sep); [done|].
  intros H. by rewrite IH.
Qed.

Lemma Split_append (h t : string) (sep : ascii) :
  count_sep h sep = 0%nat ->
  strings.Split (h ++ String sep t) sep = h :: strings.Split t sep.
Proof.
  induction h as [|c rest IH]; simpl.
  - intros _. by rewrite Ascii.eqb_refl.
  - destruct (Ascii.eqb c sep); [done|].
    intros H. by rewrite IH.
Qed.

(** Induction on strings, two characters at a time. *)
Lemma string_pair_ind (P : string -> Prop) :
  P EmptyString ->
  (forall c, P (String c EmptyString)) ->
  (forall c d s, P s -> P (String c (String d s))) ->
  forall s, P s.
Proof.
  intros H0 H1 H2.
  assert (H : forall s, P s /\ forall c, P (String c s)).
  { induction s as [|d s [IHs IHc]]; split; auto. }
  intros s. apply H.
Qed.

Lemma fromHexChar_not_slash (c : ascii) (v : Z) :
  hex.fromHexChar c = Some v -> Ascii.eqb c "/" = false.
Proof.
  intros H. destruct (Ascii.eqb c "/") eqn:E; [|done].
  apply Ascii.eqb_eq in E. subst c. discriminate H.
Qed.

Lemma Decode_no_slash (s : string) (bs : list Z) :
  hex.Decode s = Ok bs -> count_sep s "/" = 0%nat.
Proof.
  revert bs. induction s as [| c | c d s IH] using string_pair_ind;
    intros bs H.
  - done.
  - simpl in H. destruct (hex.fromHexChar c); discriminate H.
  - cbn [hex.Decode] in H.
    destruct (hex.fromHexChar c) as [a|] eqn:Ec; [|discriminate H].
    destruct (hex.fromHexChar d) as [b|] eqn:Ed; [|discriminate H].
    destruct (hex.Decode s) as [bs'|] eqn:Es; [|discriminate H].
    cbn [count_sep].
    rewrite (fromHexChar_not_slash c a Ec), (fromHexChar_not_slash d b Ed).
    by eapply IH.
Qed.

(** The errors of [hex.DecodeString] are address errors. *)
Lemma Decode_error_kind (s : string) (e : error) :
  hex.Decode s = Err e -> kind_of e = InvalidAddress.
Proof.
  revert e. induction s as [| c | c d s IH] using string_pair_ind;
    intros e H.
  - discriminate H.
  - simpl in H. destruct (hex.fromHexChar c); by inversion H.
  - cbn [hex.Decode] in H.
    destruct (hex.fromHexChar c); [|by inversion H].
    destruct (hex.fromHexChar d); [|by inversion H].
    destruct (hex.Decode s) eqn:Es; [discriminate H|].
    inversion H; subst. by apply IH.
Qed.

Lemma digit_not_slash (c : ascii) (v : Z) :
  strconv.digit c = Some v -> Ascii.eqb c "/" = false.
Proof.
  intros H. destruct (Ascii.eqb c "/") eqn:E; [|done].
  apply Ascii.eqb_eq in E. subst c. discriminate H.
Qed.

Lemma parseDigits_no_slash (s : string) (n : Z) (r : Z) :
  strconv.parseDigits s n = Some (Some r) -> count_sep s "/" = 0%nat.
Proof.
  revert n. induction s as [|c rest IH]; intros n H; simpl in *; [done|].
  destruct (strconv.digit c) as [d|] eqn:Ed; [|discriminate H].
  rewrite (digit_not_slash c d Ed).
  destruct (_ <=? n); [discriminate H|].
  destruct (_ <? _); [discriminate H|].
  by eapply IH.
Qed.

Lemma Atoi_no_slash (s : string) (l : Z) :
  strconv.Atoi s = Ok l -> count_sep s "/" = 0%nat.
Proof.
  unfold strconv.Atoi. destruct s as [|c rest]; [discriminate|].
  destruct (Ascii.eqb c "-") eqn:Eneg.
  - apply Ascii.eqb_eq in Eneg. subst c. cbn [orb count_sep Ascii.eqb].
    change (Ascii.eqb "-" "/") with false. cbv iota.
    destruct rest as [|c' rest']; [discriminate|].
    destruct (strconv.parseDigits _ 0) as [[un|]|] eqn:E; try discriminate.
    intros _. by eapply parseDigits_no_slash.
  - cbn [orb]. destruct (Ascii.eqb c "+") eqn:Epos.
    + apply Ascii.eqb_eq in Epos. subst c. cbn [count_sep].
      change (Ascii.eqb "+" "/") with false. cbv iota.
      destruct rest as [|c' rest']; [discriminate|].
      destruct (strconv.parseDigits _ 0) as [[un|]|] eqn:E; try discriminate.
      intros _. by eapply parseDigits_no_slash.
    + destruct (strconv.parseDigits _ 0) as [[un|]|] eqn:E; try discriminate.
      intros _. by eapply parseDigits_no_slash.
Qed.

(** The errors of [strconv.Atoi] are address errors. *)
Lemma Atoi_error_kind (s : string) (e : error) :
  strconv.Atoi s = Err e -> kind_of e = InvalidAddress.
Proof.
  unfold strconv.Atoi. intros H.
  repeat match type of H with
         | context [match ?x with _ => _ end] => destruct x
         end; by inversion H.
Qed.

(** ** The context a dial waits on *)

Lemma wait_ctx_Deadline (ctx : option context.Context) (endSearch : Z) :
  context.Deadline (wait_ctx ctx endSearch)
  = Some (effective_deadline ctx endSearch).
Proof.
  unfold wait_ctx, effective_deadline, context.WithTimeout,
    context.WithDeadline.
  destruct (context.Deadline (default_ctx ctx)) as [cur|] eqn:E; [|done].
  destruct (Z.ltb_spec cur (endSearch + 6 * time.Second)).
  - rewrite E. f_equal. lia.
  - simpl. f_equal. lia.
Qed.

Lemma wait_ctx_cancelled_at (ctx : option context.Context) (endSearch : Z) :
  context.cancelled_at (wait_ctx ctx endSearch)
  = context.cancelled_at (default_ctx ctx).
Proof.
  unfold wait_ctx, context.WithTimeout, context.WithDeadline.
  destruct (context.Deadline (default_ctx ctx)) as [cur|]; [|done].
  by destruct (cur <? _).
Qed.

Lemma wait_ctx_Done_at (ctx : option context.Context) (endSearch : Z) :
  context.Done_at (wait_ctx ctx endSearch) = Some (done_moment ctx endSearch).
Proof.
  unfold context.Done_at, done_moment.
  rewrite wait_ctx_Deadline, wait_ctx_cancelled_at.
  by destruct (context.cancelled_at (default_ctx ctx)).
Qed.

(** ** What a dial does *)

Section DialFacts.

Variable NodeIDLen : nat.
Variable BoxPubKeyLen : nat.
Variable GetNodeID : BoxPubKey -> NodeID.
Variable net : Network.

Lemma dial_search_failed ctx nodeID nodeMask w cause :
  search_result net nodeID nodeMask = Some cause ->
  DialByNodeIDandMask net ctx nodeID nodeMask w =
    let c := mkConn nodeID nodeMask in
    (Fail (ErrSearch cause),
     {| now := now w + search_took net nodeID nodeMask;
        trace := trace w ++ [EvNewConn c; EvSearch c; EvClose c] |}).
Proof.
  intros H.
  unfold DialByNodeIDandMask, bind, time_Now, newConn, conn_search,
    conn_Close, emit, fail, ret, bind; simpl.
  rewrite H; simpl. by rewrite <- !app_assoc.
Qed.

Lemma dial_located ctx nodeID nodeMask w :
  search_result net nodeID nodeMask = None ->
  DialByNodeIDandMask net ctx nodeID nodeMask w =
    let c := mkConn nodeID nodeMask in
    let took := search_took net nodeID nodeMask in
    let endSearch := now w + took in
    match select_at endSearch
            (option_map (Z.add endSearch) (init_after net))
            (Some (done_moment ctx endSearch))
            (select_init_if_both net) with
    | Some (SessionInit, t) =>
        (Return c,
         {| now := t;
            trace := trace w ++ located_events c took ++
              [EvDebugln "Dial initialized session for:" (t - endSearch);
               EvDebugln "Finished dial for:" (t - now w); EvCancel] |})
    | Some (CtxDone, t) =>
        (Fail ErrSessionHandshakeTimeout,
         {| now := t;
            trace := trace w ++ located_events c took ++
              [EvClose c; EvCancel] |})
    | None => (Blocked, w)
    end.
Proof.
  intros H.
  unfold DialByNodeIDandMask, bind, time_Now, newConn, conn_search,
    conn_Close, session_setConn, log_Debugln, emit, fail, ret, defer,
    select_init_or_done, bind; simpl.
  rewrite H; simpl.
  fold (default_ctx ctx).
  fold (wait_ctx ctx (now w + search_took net nodeID nodeMask)).
  rewrite wait_ctx_Done_at.
  destruct (select_at _ _ _ _) as [[[|] t]|] eqn:E; simpl.
  - rewrite <- !app_assoc. simpl. repeat f_equal; lia.
  - rewrite <- !app_assoc. simpl. repeat f_equal; lia.
  - unfold select_at in E. destruct (init_after net); simpl in E;
      repeat case_match; discriminate E.
Qed.

(** Every dial makes the search. *)
Lemma dial_emits_search ctx nodeID nodeMask w :
  In (EvSearch (mkConn nodeID nodeMask))
     (trace (snd (DialByNodeIDandMask net ctx nodeID nodeMask w))).
Proof.
  destruct (search_result net nodeID nodeMask) as [cause|] eqn:Hs.
  - rewrite (dial_search_failed ctx nodeID nodeMask w cause Hs). simpl.
    apply in_or_app. right. simpl. auto.
  - rewrite (dial_located ctx nodeID nodeMask w Hs). cbv zeta.
    destruct (select_at _ _ _ _) as [[[|] t]|] eqn:E; simpl.
    + apply in_or_app. right. simpl. auto.
    + apply in_or_app. right. simpl. auto.
    + unfold select_at in E. destruct (init_after net); simpl in E;
        repeat case_match; discriminate E.
Qed.

End DialFacts.

(** ** The address resolver *)

Lemma copy_full (dst src : list Z) :
  length src = length dst -> copy dst src = src.
Proof.
  intros H. unfold copy.
  rewrite <- H, firstn_all, drop_ge, app_nil_r by lia. done.
Qed.

Lemma copy_length (dst src : list Z) : length (copy dst src) = length dst.
Proof.
  unfold copy. rewrite length_app, length_take, length_drop. lia.
Qed.

Lemma copy_zero_lookup (n : nat) (src : list Z) (i : nat) :
  (i < n)%nat -> copy (zero_array n) src !! i = Some (default 0 (src !! i)).
Proof.
  intros Hi. unfold copy, zero_array. rewrite length_replicate.
  destruct (decide (i < length src)%nat) as [Hs|Hs].
  - rewrite lookup_app_l by (rewrite length_take; lia).
    rewrite lookup_take_lt by lia.
    destruct (lookup_lt_is_Some_2 src i Hs) as [x ->]. done.
  - rewrite take_ge by lia.
    rewrite lookup_app_r by lia.
    rewrite lookup_drop, (lookup_ge_None_2 src i) by lia. simpl.
    apply lookup_replicate_2. lia.
Qed.

Section ResolverFacts.

Variable NodeIDLen : nat.
Variable BoxPubKeyLen : nat.
Variable GetNodeID : BoxPubKey -> NodeID.
Variable net : Network.

(** The mask that [DialByPublicKey] fills is the mask of all ones. *)
Lemma DialByPublicKey_ones ctx pubKey :
  DialByPublicKey NodeIDLen GetNodeID net ctx pubKey
  = DialByNodeIDandMask net ctx (GetNodeID pubKey) (replicate NodeIDLen 255).
Proof. unfold DialByPublicKey. by rewrite fill_ones_zero_array. Qed.

(** The default branch of the switch. *)
Lemma DialContext_default ctx network address :
  network <> "http"%string -> network <> "curve25519"%string ->
  network <> "nodeid"%string ->
  DialContext NodeIDLen BoxPubKeyLen GetNodeID net ctx network address
  = fail (ErrUnexpectedAddressType network).
Proof.
  intros H1 H2 H3. unfold DialContext.
  apply String.eqb_neq in H1, H2, H3. by rewrite H1, H2, H3.
Qed.

Local Abbreviation DialContext :=
  (DialContext NodeIDLen BoxPubKeyLen GetNodeID net).

(** The branch of the switch for ["nodeid"]. *)
Lemma DialContext_nodeid ctx address :
  DialContext ctx "nodeid" address =
    let tokens := strings.Split address "/" in
    if (length tokens =? 2)%nat then
      match strconv.Atoi (nth 1 tokens EmptyString) with
      | Err err => fail err
      | Ok l =>
          match hex.DecodeString (nth 0 tokens EmptyString) with
          | Err err => fail err
          | Ok dest =>
              match prefix_loop (Z.to_nat l) 0 (zero_array NodeIDLen) with
              | None => panic
              | Some nodeMask =>
                  DialByNodeIDandMask net ctx
                    (copy (zero_array NodeIDLen) dest) nodeMask
              end
          end
      end
    else
      match hex.DecodeString (nth 0 tokens EmptyString) with
      | Err err => fail err
      | Ok dest =>
          DialByNodeIDandMask net ctx
            (copy (zero_array NodeIDLen) dest)
            (fill_ones (zero_array NodeIDLen))
      end.
Proof. reflexivity. Qed.

(** The branch of the switch for ["http"] and ["curve25519"]. *)
Lemma DialContext_key ctx network address :
  network = "http"%string \/ network = "curve25519"%string ->
  DialContext ctx network address =
    match hex.DecodeString address with
    | Err err => fail err
    | Ok dest =>
        if negb (length dest =? BoxPubKeyLen)%nat
        then fail ErrInvalidKeyLength
        else DialByPublicKey NodeIDLen GetNodeID net ctx
               (copy (zero_array BoxPubKeyLen) dest)
    end.
Proof. by intros [-> | ->]. Qed.

(** The prefix count of an address [h/s] is used as [strconv.Atoi] gives
    it: a count that is not positive leaves the mask empty, and a count
    above the number of bits of the mask makes the dial panic. *)
Lemma DialContext_prefix_unchecked ctx h s dest l :
  hex.DecodeString h = Ok dest ->
  strconv.Atoi s = Ok l ->
  (l <= 0 ->
   DialContext ctx "nodeid" (h ++ String "/" s)
   = DialByNodeIDandMask net ctx (copy (zero_array NodeIDLen) dest)
       (zero_array NodeIDLen)) /\
  (8 * Z.of_nat NodeIDLen < l ->
   DialContext ctx "nodeid" (h ++ String "/" s) = panic).
Proof.
  intros Hh Hs.
  assert (E : strings.Split (h ++ String "/" s) "/" = [h; s]).
  { rewrite Split_append by (by eapply Decode_no_slash).
    by rewrite Split_no_sep by (by eapply Atoi_no_slash). }
  split; intros Hl; rewrite DialContext_nodeid; cbv zeta;
    rewrite E; simpl; rewrite Hs, Hh.
  - by rewrite prefix_loop_nonpositive.
  - by rewrite prefix_loop_out_of_range.
Qed.

(** Every dial through [DialContext] either stops in the resolver, with
    an address or scheme error or a panic and the world untouched, or is
    the dial of a target under the context it was given. *)
Lemma DialContext_cases ctx network address w :
  (exists nodeID nodeMask,
      DialContext ctx network address w
      = DialByNodeIDandMask net ctx nodeID nodeMask w) \/
  (snd (DialContext ctx network address w) = w /\
   (fst (DialContext ctx network address w) = Panicked \/
    exists e, fst (DialContext ctx network address w) = Fail e /\
              (kind_of e = InvalidAddress \/ kind_of e = UnsupportedScheme))).
Proof.
  destruct (String.eqb_spec network "http") as [->|H1];
    [|destruct (String.eqb_spec network "curve25519") as [->|H2];
      [|destruct (String.eqb_spec network "nodeid") as [->|H3]]].
  - rewrite DialContext_key by auto.
    destruct (hex.DecodeString address) as [dest|e] eqn:E.
    + destruct (negb _); [|left; by eauto].
      right. split; [done|]. right. exists ErrInvalidKeyLength. auto.
    + right. split; [done|]. right. exists e. split; [done|]. left.
      by eapply Decode_error_kind.
  - rewrite DialContext_key by auto.
    destruct (hex.DecodeString address) as [dest|e] eqn:E.
    + destruct (negb _); [|left; by eauto].
      right. split; [done|]. right. exists ErrInvalidKeyLength. auto.
    + right. split; [done|]. right. exists e. split; [done|]. left.
      by eapply Decode_error_kind.
  - rewrite DialContext_nodeid. cbv zeta.
    destruct (length _ =? 2)%nat.
    + destruct (strconv.Atoi _) as [l|e] eqn:Ea.
      * destruct (hex.DecodeString _) as [dest|e] eqn:E.
        -- destruct (prefix_loop _ _ _); [left; by eauto|].
           right. split; [done|]. by left.
        -- right. split; [done|]. right. exists e. split; [done|]. left.
           by eapply Decode_error_kind.
      * right. split; [done|]. right. exists e. split; [done|]. left.
        by eapply Atoi_error_kind.
    + destruct (hex.DecodeString _) as [dest|e] eqn:E; [left; by eauto|].
      right. split; [done|]. right. exists e. split; [done|]. left.
      by eapply Decode_error_kind.
  - rewrite DialContext_default by done.
    right. split; [done|]. right. eexists. split; [done|]. by right.
Qed.

End ResolverFacts.

(** ** The race between the handshake and the deadline *)

Lemma select_at_init_first (t i d : Z) (both : bool) :
  Z.max t i < Z.max t d ->
  select_at t (Some i) (Some d) both = Some (SessionInit, Z.max t i).
Proof.
  intros H. unfold select_at.
  destruct (Z.ltb_spec (Z.max t i) (Z.max t d)); [done | lia].
Qed.

Lemma select_at_done_first (t i d : Z) (both : bool) :
  Z.max t d < Z.max t i ->
  select_at t (Some i) (Some d) both = Some (CtxDone, Z.max t d).
Proof.
  intros H. unfold select_at.
  destruct (Z.ltb_spec (Z.max t i) (Z.max t d)); [lia|].
  destruct (Z.ltb_spec (Z.max t d) (Z.max t i)); [done | lia].
Qed.

Lemma select_at_init_inv (t d t' : Z) (oi : option Z) (both : bool) :
  select_at t oi (Some d) both = Some (SessionInit, t') ->
  exists i, oi = Some i /\ t' = Z.max t i /\ Z.max t i <= Z.max t d.
Proof.
  unfold select_at. destruct oi as [i|]; [|discriminate].
  destruct (Z.ltb_spec (Z.max t i) (Z.max t d)).
  - intros [= <-]. exists i. repeat split; lia.
  - destruct (Z.ltb_spec (Z.max t d) (Z.max t i)); [discriminate|].
    destruct both; [|discriminate].
    intros [= <-]. exists i. repeat split; lia.
Qed.

Lemma select_at_done_inv (t d t' : Z) (oi : option Z) (both : bool) :
  select_at t oi (Some d) both = Some (CtxDone, t') ->
  t' = Z.max t d /\
  (oi = None \/ exists i, oi = Some i /\ Z.max t d <= Z.max t i).
Proof.
  unfold select_at. destruct oi as [i|]; [|intros [= <-]; auto].
  destruct (Z.ltb_spec (Z.max t i) (Z.max t d)); [discriminate|].
  destruct (Z.ltb_spec (Z.max t d) (Z.max t i)).
  - intros [= <-]. split; [done|]. right. exists i. split; [done | lia].
  - destruct both; [discriminate|].
    intros [= <-]. split; [lia|]. right. exists i. split; [done | lia].
Qed.

Lemma select_at_init_cases (t i d t' : Z) (both : bool) :
  select_at t (Some i) (Some d) both = Some (SessionInit, t') ->
  Z.max t i < Z.max t d \/ (Z.max t i = Z.max t d /\ both = true).
Proof.
  unfold select_at.
  destruct (Z.ltb_spec (Z.max t i) (Z.max t d)); [by left|].
  destruct (Z.ltb_spec (Z.max t d) (Z.max t i)); [discriminate|].
  destruct both; [|discriminate]. intros _. right. split; [lia | done].
Qed.

Lemma select_at_init_intro (t i d : Z) (both : bool) :
  Z.max t i < Z.max t d \/ (Z.max t i = Z.max t d /\ both = true) ->
  select_at t (Some i) (Some d) both = Some (SessionInit, Z.max t i).
Proof.
  intros [H|[H ->]]; unfold select_at.
  - destruct (Z.ltb_spec (Z.max t i) (Z.max t d)); [done | lia].
  - destruct (Z.ltb_spec (Z.max t i) (Z.max t d)); [done|].
    destruct (Z.ltb_spec (Z.max t d) (Z.max t i)); [lia | done].
Qed.

(** * The properties of the specification *)

Section SpecProperties.

Variable NodeIDLen : nat.
Variable BoxPubKeyLen : nat.
Variable GetNodeID : BoxPubKey -> NodeID.
Variable net : Network.

Local Abbreviation DialByNodeIDandMask := (DialByNodeIDandMask net).
Local Abbreviation DialByPublicKey := (DialByPublicKey NodeIDLen GetNodeID net).
Local Abbreviation DialContext := (DialContext NodeIDLen BoxPubKeyLen GetNodeID net).
Local Abbreviation Dial := (Dial NodeIDLen BoxPubKeyLen GetNodeID net).

(** C1. When the target of a dial is located, the deadline of the
    handshake is the lookup-completion time plus six seconds if the
    caller gave no deadline, and the earlier of that and the caller's
    deadline otherwise; it does not depend on when the dial started.
    With no cancellation by the caller, the dial times out at exactly
    that moment (or at once, when it has passed) unless the handshake
    completes before it, whatever the search took. *)
Theorem dial_effective_deadline ctx nodeID nodeMask w :
  search_result net nodeID nodeMask = None ->
  let endSearch := now w + search_took net nodeID nodeMask in
  let window := endSearch + 6 * time.Second in
  let deadline :=
    match ctx with
    | None => window
    | Some c =>
        match context.Deadline c with
        | None => window
        | Some d => Z.min d window
        end
    end in
  let r := DialByNodeIDandMask ctx nodeID nodeMask w in
  context.Deadline (wait_ctx ctx endSearch) = Some deadline /\
  (context.cancelled_at (default_ctx ctx) = None ->
   (init_after net = None ->
    fst r = Fail ErrSessionHandshakeTimeout /\
    now (snd r) = Z.max endSearch deadline) /\
   (forall h, init_after net = Some h ->
      (Z.max endSearch (endSearch + h) < Z.max endSearch deadline ->
       fst r = Return (mkConn nodeID nodeMask) /\
       now (snd r) = Z.max endSearch (endSearch + h)) /\
      (Z.max endSearch deadline < Z.max endSearch (endSearch + h) ->
       fst r = Fail ErrSessionHandshakeTimeout /\
       now (snd r) = Z.max endSearch deadline))).
Proof.
  intros Hloc endSearch window deadline r.
  assert (Hd : effective_deadline ctx endSearch = deadline).
  { unfold effective_deadline, deadline, window. by destruct ctx. }
  split; [by rewrite wait_ctx_Deadline, Hd|].
  intros Hcancel.
  assert (Hm : done_moment ctx endSearch = deadline).
  { unfold done_moment. by rewrite Hcancel. }
  subst r. rewrite dial_located by done. cbv zeta.
  fold endSearch. rewrite Hm.
  split.
  - intros ->. simpl. done.
  - intros h ->. simpl option_map. split; intros Hlt.
    + rewrite select_at_init_first by done. done.
    + rewrite select_at_done_first by done. done.
Qed.

(** C2, as the code has it.  Every dial ends with one outcome: it
    returns a connection or an error, it never panics or blocks, and
    every returned error follows a close of the connection.  When the
    search fails, the connection is closed and the search's error is
    returned.  When the deadline (or the caller's cancellation, if that
    is earlier) comes before the handshake signal and the signal comes
    after the wait has begun, or never, the connection is closed and the
    handshake timeout is returned.  A connection is returned only when
    the search succeeded and either the signal came no later than the
    deadline, or both had happened when the wait began and the [select]
    took the case of the signal; it has not been closed then.  When
    signal and deadline are ready at the same moment of the wait (both
    before it began, or both at one later moment), the outcome is the
    choice of the [select]. *)
Theorem dial_one_outcome ctx nodeID nodeMask w :
  let c := mkConn nodeID nodeMask in
  let endSearch := now w + search_took net nodeID nodeMask in
  let done := done_moment ctx endSearch in
  let r := DialByNodeIDandMask ctx nodeID nodeMask w in
  (exists evs, trace (snd r) = trace w ++ evs /\
     ((fst r = Return c /\ ~ In (EvClose c) evs) \/
      (exists e, fst r = Fail e /\
         (kind_of e = SearchFailed \/ kind_of e = HandshakeTimedOut) /\
         exists pre, evs = pre ++ [EvClose c] \/
                     evs = pre ++ [EvClose c; EvCancel]))) /\
  (forall cause, search_result net nodeID nodeMask = Some cause ->
     fst r = Fail (ErrSearch cause) /\
     trace (snd r) = trace w ++ [EvNewConn c; EvSearch c; EvClose c]) /\
  (search_result net nodeID nodeMask = None ->
   (init_after net = None \/
    exists h, init_after net = Some h /\ 0 < h /\ done < endSearch + h) ->
   fst r = Fail ErrSessionHandshakeTimeout /\
   trace (snd r) =
     trace w ++ located_events c (search_took net nodeID nodeMask)
       ++ [EvClose c; EvCancel]) /\
  (forall c', fst r = Return c' ->
     c' = c /\ search_result net nodeID nodeMask = None /\
     exists h, init_after net = Some h /\
       (endSearch + h <= done \/
        (h <= 0 /\ done <= endSearch /\ select_init_if_both net = true))) /\
  (search_result net nodeID nodeMask = None ->
   forall h, init_after net = Some h ->
     Z.max endSearch (endSearch + h) = Z.max endSearch done ->
     fst r = if select_init_if_both net then Return c
             else Fail ErrSessionHandshakeTimeout).
Proof.
  intros c endSearch done r. subst r.
  destruct (search_result net nodeID nodeMask) as [cause|] eqn:Hs.
  - rewrite (dial_search_failed net ctx nodeID nodeMask w cause Hs).
    cbv zeta. fold c. simpl.
    split; [|split; [|split; [|split]]].
    + eexists; split; [reflexivity|]. right.
      exists (ErrSearch cause). split; [done|]. split; [by left|].
      exists [EvNewConn c; EvSearch c]. by left.
    + by intros ? [= <-].
    + discriminate.
    + discriminate.
    + discriminate.
  - rewrite (dial_located net ctx nodeID nodeMask w Hs).
    cbv zeta. fold c endSearch done.
    destruct (init_after net) as [h|] eqn:Eh; simpl option_map.
    + destruct (select_at endSearch (Some (endSearch + h)) (Some done)
                  (select_init_if_both net)) as [[[|] t]|] eqn:E.
      * pose proof (select_at_init_cases _ _ _ _ _ E) as Hc.
        apply select_at_init_inv in E as (i & [= <-] & -> & Hle). simpl.
        split; [|split; [|split; [|split]]].
        -- eexists; split; [reflexivity|]. left. split; [done|].
           simpl. intros [H|[H|[H|[H|[H|[H|[H|[]]]]]]]]; discriminate H.
        -- discriminate.
        -- intros _ [H|(h' & [= <-] & Hpos & Hlt)]; [discriminate H | lia].
        -- intros c' [= <-]. split; [done|]. split; [done|].
           exists h. split; [done|].
           destruct (Z.le_gt_cases (endSearch + h) done) as [Hd|Hd];
             [by left|].
           right. destruct Hc as [Hlt|[Heq Hb]]; [lia|].
           split; [lia|]. split; [lia | done].
        -- intros _ h' [= <-] Heq.
           destruct Hc as [Hlt|[_ ->]]; [lia | done].
      * pose proof E as E'.
        apply select_at_done_inv in E as (-> & _). simpl.
        split; [|split; [|split; [|split]]].
        -- eexists; split; [reflexivity|]. right.
           exists ErrSessionHandshakeTimeout. split; [done|].
           split; [by right|].
           exists (located_events c (search_took net nodeID nodeMask)).
           by right.
        -- discriminate.
        -- done.
        -- discriminate.
        -- intros _ h' [= <-] Heq. unfold select_at in E'.
           rewrite Heq, Z.ltb_irrefl in E'.
           destruct (select_init_if_both net); [discriminate E' | done].
      * unfold select_at in E. repeat case_match; discriminate E.
    + simpl.
      split; [|split; [|split; [|split]]].
      * eexists; split; [reflexivity|]. right.
        exists ErrSessionHandshakeTimeout. split; [done|].
        split; [by right|].
        exists (located_events c (search_took net nodeID nodeMask)).
        by right.
      * discriminate.
      * done.
      * discriminate.
      * discriminate.
Qed.

(** C3. An identifier-scheme address [h/s], where [h] is hexadecimal
    and [s] is a prefix count [p] between 0 and the number of bits of an
    identifier, is dialled with a mask whose first [p] bits are set and
    whose other bits are clear; the address [h] alone is dialled with the
    mask of all ones. *)
Theorem nodeid_prefix_mask ctx h s dest p :
  hex.DecodeString h = Ok dest ->
  strconv.Atoi s = Ok p ->
  0 <= p <= 8 * Z.of_nat NodeIDLen ->
  (exists nodeMask,
      DialContext ctx "nodeid" (h ++ String "/" s)
      = DialByNodeIDandMask ctx (copy (zero_array NodeIDLen) dest) nodeMask /\
      length nodeMask = NodeIDLen /\
      Forall is_byte nodeMask /\
      forall i, 0 <= i < 8 * Z.of_nat NodeIDLen ->
        mask_bit nodeMask i = (i <? p)) /\
  DialContext ctx "nodeid" h
  = DialByNodeIDandMask ctx (copy (zero_array NodeIDLen) dest)
      (replicate NodeIDLen 255) /\
  forall i, 0 <= i < 8 * Z.of_nat NodeIDLen ->
    mask_bit (replicate NodeIDLen 255) i = true.
Proof.
  intros Hh Hs Hp.
  pose proof (Decode_no_slash h dest Hh) as Nh.
  pose proof (Atoi_no_slash s p Hs) as Ns.
  split; [|split].
  - destruct (prefix_loop_zero NodeIDLen p Hp) as (m & Em & Lm & Bm & Sm).
    exists m. split; [|done].
    rewrite DialContext_nodeid. cbv zeta.
    rewrite Split_append, Split_no_sep by done. simpl.
    by rewrite Hs, Hh, Em.
  - rewrite DialContext_nodeid. cbv zeta.
    rewrite Split_no_sep by done. simpl.
    by rewrite Hh, fill_ones_zero_array.
  - intros i Hi. by apply mask_bit_ones.
Qed.

(** C6. A key-scheme address (scheme ["curve25519"] or its alias
    ["http"]) whose hexadecimal decoding fails, or gives another number of
    bytes than a public key has, fails with an address error and leaves
    the world untouched, so no lookup is made; any other is dialled at the
    identifier that [GetNodeID] derives from the decoded key, with the
    mask of all ones. *)
Theorem key_scheme_resolution ctx network address :
  network = "http"%string \/ network = "curve25519"%string ->
  match hex.DecodeString address with
  | Err e =>
      kind_of e = InvalidAddress /\
      forall w, DialContext ctx network address w = (Fail e, w)
  | Ok dest =>
      if (length dest =? BoxPubKeyLen)%nat then
        DialContext ctx network address = DialByPublicKey ctx dest /\
        DialContext ctx network address
        = DialByNodeIDandMask ctx (GetNodeID dest) (replicate NodeIDLen 255)
      else
        kind_of ErrInvalidKeyLength = InvalidAddress /\
        forall w,
          DialContext ctx network address w = (Fail ErrInvalidKeyLength, w)
  end.
Proof.
  intros Hn. rewrite DialContext_key by done.
  destruct (hex.DecodeString address) as [dest|e] eqn:E.
  - destruct (Nat.eqb_spec (length dest) BoxPubKeyLen) as [L|L]; simpl.
    + rewrite copy_full by (unfold zero_array; by rewrite length_replicate).
      split; [done|].
      apply DialByPublicKey_ones.
    + done.
  - split; [|done]. by eapply Decode_error_kind.
Qed.

(** C7. A scheme token other than ["http"], ["curve25519"] and ["nodeid"]
    fails with the unsupported-scheme error and leaves the world
    untouched, so no lookup is begun. *)
Theorem unsupported_scheme ctx network address w :
  network <> "http"%string ->
  network <> "curve25519"%string ->
  network <> "nodeid"%string ->
  DialContext ctx network address w
  = (Fail (ErrUnexpectedAddressType network), w) /\
  kind_of (ErrUnexpectedAddressType network) = UnsupportedScheme.
Proof.
  intros H1 H2 H3. by rewrite DialContext_default.
Qed.

(** C8. Dialling by public key is dialling by identifier and mask, at the
    identifier derived from the key and the mask of all ones, under the
    same context. *)
Theorem DialByPublicKey_composition ctx pubKey :
  DialByPublicKey ctx pubKey
  = DialByNodeIDandMask ctx (GetNodeID pubKey) (replicate NodeIDLen 255) /\
  length (replicate NodeIDLen 255 : list Z) = NodeIDLen /\
  forall i, 0 <= i < 8 * Z.of_nat NodeIDLen ->
    mask_bit (replicate NodeIDLen 255) i = true.
Proof.
  split; [|split].
  - apply DialByPublicKey_ones.
  - apply length_replicate.
  - intros i Hi. by apply mask_bit_ones.
Qed.

(** C9. An identifier-scheme address in which the number of ['/']
    separators is not one is not refused for that: only what stands
    before the first separator is decoded as the identifier, the mask is
    all ones, and the rest of the address is ignored, so the dial is the
    one of the first token alone.  The identifier dialled holds the bytes
    of the decoded first token, cut to the length of an identifier or
    filled up with zero bytes, and is the decoded token itself when that
    has the length of an identifier. *)
Theorem nodeid_separator_count ctx address :
  count_sep address "/" <> 1%nat ->
  let first := before_sep address "/" in
  DialContext ctx "nodeid" address =
    match hex.DecodeString first with
    | Err e => fail e
    | Ok dest =>
        DialByNodeIDandMask ctx (copy (zero_array NodeIDLen) dest)
          (replicate NodeIDLen 255)
    end /\
  DialContext ctx "nodeid" address = DialContext ctx "nodeid" first /\
  (forall dest, hex.DecodeString first = Ok dest ->
     exists nodeID,
       DialContext ctx "nodeid" address
       = DialByNodeIDandMask ctx nodeID (replicate NodeIDLen 255) /\
       length nodeID = NodeIDLen /\
       (forall i, (i < NodeIDLen)%nat ->
          nodeID !! i = Some (default 0 (dest !! i))) /\
       (length dest = NodeIDLen -> nodeID = dest) /\
       (forall i, 0 <= i < 8 * Z.of_nat NodeIDLen ->
          mask_bit (replicate NodeIDLen 255) i = true)).
Proof.
  intros Hc first.
  assert (E : DialContext ctx "nodeid" address =
    match hex.DecodeString first with
    | Err e => fail e
    | Ok dest =>
        DialByNodeIDandMask ctx (copy (zero_array NodeIDLen) dest)
          (replicate NodeIDLen 255)
    end).
  { rewrite DialContext_nodeid. cbv zeta.
    rewrite Split_length, Split_first. fold first.
    destruct (Nat.eqb_spec (S (count_sep address "/")) 2) as [H|H]; [lia|].
    by rewrite fill_ones_zero_array. }
  split; [done|]. split.
  - rewrite E.
    destruct (hex.DecodeString first) as [dest|e] eqn:Ed.
    + rewrite DialContext_nodeid. cbv zeta.
      rewrite Split_no_sep by (by eapply Decode_no_slash). simpl.
      by rewrite Ed, fill_ones_zero_array.
    + rewrite DialContext_nodeid. cbv zeta.
      rewrite Split_length, Split_first.
      assert (F : before_sep first "/" = first).
      { subst first. clear. induction address as [|c r IH]; simpl; [done|].
        destruct (Ascii.eqb c "/") eqn:Ec; simpl; [done|].
        by rewrite Ec, IH. }
      assert (Z0 : count_sep first "/" = 0%nat).
      { subst first. clear. induction address as [|c r IH]; simpl; [done|].
        destruct (Ascii.eqb c "/") eqn:Ec; simpl; [done|]. by rewrite Ec. }
      rewrite F, Z0. simpl. by rewrite Ed.
  - intros dest Ed. exists (copy (zero_array NodeIDLen) dest).
    split; [by rewrite E, Ed|].
    split; [rewrite copy_length; apply length_replicate|].
    split; [intros i Hi; by apply copy_zero_lookup|].
    split.
    + intros L. apply copy_full. unfold zero_array.
      by rewrite length_replicate.
    + intros i Hi. by apply mask_bit_ones.
Qed.

(** C10. [Dial] is [DialContext] with the nil context.  Such a dial stops
    in the resolver or is a dial under the nil context; under the nil
    context the wait has the deadline of six seconds after the search and
    no other, so a dial whose handshake never completes times out exactly
    then. *)
Theorem Dial_nil_context network address :
  Dial network address = DialContext None network address /\
  (forall w,
      (exists nodeID nodeMask,
          Dial network address w = DialByNodeIDandMask None nodeID nodeMask w) \/
      (snd (Dial network address w) = w /\
       (fst (Dial network address w) = Panicked \/
        exists e, fst (Dial network address w) = Fail e))) /\
  (forall endSearch,
      wait_ctx None endSearch =
        {| context.Deadline := Some (endSearch + 6 * time.Second);
           context.cancelled_at := None |}) /\
  (forall nodeID nodeMask w,
      search_result net nodeID nodeMask = None ->
      init_after net = None ->
      let r := DialByNodeIDandMask None nodeID nodeMask w in
      fst r = Fail ErrSessionHandshakeTimeout /\
      now (snd r)
      = now w + search_took net nodeID nodeMask + 6 * time.Second).
Proof.
  split; [done|]. split; [|split].
  - intros w.
    change (Dial network address w) with (DialContext None network address w).
    destruct (DialContext_cases NodeIDLen BoxPubKeyLen GetNodeID net
                None network address w) as [H|[H1 [H2|(e & H2 & _)]]].
    + by left.
    + right. auto.
    + right. split; [done|]. right. by exists e.
  - done.
  - intros nodeID nodeMask w Hs Hi r. subst r.
    rewrite dial_located by done. cbv zeta. rewrite Hi. simpl.
    split; [done|]. unfold done_moment, effective_deadline. simpl.
    unfold time.Second. lia.
Qed.

End SpecProperties.

(** ** The properties at concrete addresses *)

Lemma dial_effective_deadline_witness :
  search_result sample_net [] [] = None /\
  context.Deadline (wait_ctx None 100000000) = Some 6100000000 /\
  fst (DialByNodeIDandMask sample_net None [] [] sample_world)
  = Return (mkConn [] []).
Proof.
  pose proof (dial_effective_deadline sample_net None [] [] sample_world
                eq_refl) as H.
  cbv zeta in H. destruct H as [Hd H].
  split; [reflexivity|]. split; [exact Hd|].
  destruct (H eq_refl) as [_ Hh].
  destruct (Hh 50000000 eq_refl) as [Hok _].
  apply Hok. vm_compute. reflexivity.
Defined.

Lemma nodeid_prefix_mask_witness :
  hex.DecodeString "ab" = Ok [171] /\
  strconv.Atoi "12" = Ok 12 /\
  0 <= 12 <= 8 * Z.of_nat crypto_NodeIDLen /\
  exists nodeMask,
    sample_DialContext None "nodeid" "ab/12"
    = DialByNodeIDandMask sample_net None
        (copy (zero_array crypto_NodeIDLen) [171]) nodeMask /\
    length nodeMask = crypto_NodeIDLen /\
    Forall is_byte nodeMask /\
    forall i, 0 <= i < 8 * Z.of_nat crypto_NodeIDLen ->
      mask_bit nodeMask i = (i <? 12).
Proof.
  split; [reflexivity|]. split; [reflexivity|].
  split; [unfold crypto_NodeIDLen; lia|].
  apply (nodeid_prefix_mask crypto_NodeIDLen crypto_BoxPubKeyLen
           sample_GetNodeID sample_net None "ab" "12" [171] 12
           eq_refl eq_refl).
  unfold crypto_NodeIDLen; lia.
Defined.

Lemma key_scheme_resolution_witness :
  ("curve25519" = "http" \/ "curve25519" = "curve25519")%string /\
  kind_of ErrLength = InvalidAddress /\
  forall w, sample_DialContext None "curve25519" "abc" w = (Fail ErrLength, w).
Proof.
  split; [right; reflexivity|].
  exact (key_scheme_resolution crypto_NodeIDLen crypto_BoxPubKeyLen
           sample_GetNodeID sample_net None "curve25519" "abc"
           (or_intror eq_refl)).
Defined.

Lemma unsupported_scheme_witness :
  "tcp"%string <> "http"%string /\
  "tcp"%string <> "curve25519"%string /\
  "tcp"%string <> "nodeid"%string /\
  sample_DialContext None "tcp" "ab" sample_world
  = (Fail (ErrUnexpectedAddressType "tcp"), sample_world).
Proof.
  assert (H1 : "tcp"%string <> "http"%string) by discriminate.
  assert (H2 : "tcp"%string <> "curve25519"%string) by discriminate.
  assert (H3 : "tcp"%string <> "nodeid"%string) by discriminate.
  split; [exact H1|]. split; [exact H2|]. split; [exact H3|].
  exact (proj1 (unsupported_scheme crypto_NodeIDLen crypto_BoxPubKeyLen
                  sample_GetNodeID sample_net None "tcp" "ab" sample_world
                  H1 H2 H3)).
Defined.

Lemma nodeid_separator_count_witness :
  count_sep "ab/12/7" "/" <> 1%nat /\
  hex.DecodeString (before_sep "ab/12/7" "/") = Ok [171] /\
  sample_DialContext None "nodeid" "ab/12/7"
  = DialByNodeIDandMask sample_net None
      (171 :: replicate 63 0) (replicate crypto_NodeIDLen 255) /\
  sample_DialContext None "nodeid" "ab/12/7"
  = sample_DialContext None "nodeid" "ab" /\
  exists nodeID,
    sample_DialContext None "nodeid" "ab/12/7"
    = DialByNodeIDandMask sample_net None nodeID
        (replicate crypto_NodeIDLen 255) /\
    nodeID !! 0%nat = Some 171 /\
    nodeID !! 1%nat = Some 0.
Proof.
  assert (H : count_sep "ab/12/7" "/" <> 1%nat) by (simpl; lia).
  pose proof (nodeid_separator_count crypto_NodeIDLen crypto_BoxPubKeyLen
                sample_GetNodeID sample_net None "ab/12/7" H) as T.
  cbv zeta in T. destruct T as (T1 & T2 & T3).
  split; [exact H|]. split; [reflexivity|].
  split; [exact T1|]. split; [exact T2|].
  destruct (T3 [171] eq_refl) as (nodeID & E & _ & B & _).
  exists nodeID. split; [exact E|].
  split; [exact (B 0%nat ltac:(unfold crypto_NodeIDLen; lia))
         | exact (B 1%nat ltac:(unfold crypto_NodeIDLen; lia))].
Defined.

(** C2, as the specification words it, does not hold.  The caller's
    deadline is 10 ms, the handshake signal comes at 50 ms and the search
    ends at 100 ms: the deadline has elapsed before the signal, both are
    ready when the [select] is entered, the [select] takes the case of
    the signal, and the dial returns the connection, which has not been
    closed, instead of the handshake timeout. *)
Lemma dial_returns_after_deadline :
  let endSearch := now sample_world + search_took early_signal_net [] [] in
  let r := DialByNodeIDandMask early_signal_net (Some early_deadline_ctx)
             [] [] sample_world in
  search_result early_signal_net [] [] = None /\
  effective_deadline (Some early_deadline_ctx) endSearch = 10000000 /\
  init_after early_signal_net = Some (-50000000) /\
  endSearch + -50000000 = 50000000 /\
  10000000 < 50000000 /\
  fst r = Return (mkConn [] []) /\
  fst r <> Fail ErrSessionHandshakeTimeout /\
  count_events is_EvClose (trace (snd r)) = 0%nat.
Proof.
  cbv zeta.
  split; [reflexivity|]. split; [reflexivity|]. split; [reflexivity|].
  split; [reflexivity|]. split; [lia|]. split; [reflexivity|].
  split; [discriminate | reflexivity].
Qed.

(** C4. On the code, a prefix count out of range is not refused with an
    address error.  With identifiers of 64 bytes, the address [00/-1] is
    dialled with the empty mask, so a search is made, and the address
    [00/513] makes the mask loop index the byte after the mask, where the
    dial panics. *)
Theorem nodeid_prefix_out_of_range BoxPubKeyLen GetNodeID net ctx w :
  DialContext crypto_NodeIDLen BoxPubKeyLen GetNodeID net ctx
    "nodeid" "00/-1" w
  = DialByNodeIDandMask net ctx
      (zero_array crypto_NodeIDLen) (zero_array crypto_NodeIDLen) w /\
  In (EvSearch (mkConn (zero_array crypto_NodeIDLen)
                  (zero_array crypto_NodeIDLen)))
     (trace (snd (DialContext crypto_NodeIDLen BoxPubKeyLen GetNodeID net ctx
                    "nodeid" "00/-1" w))) /\
  DialContext crypto_NodeIDLen BoxPubKeyLen GetNodeID net ctx
    "nodeid" "00/513" w
  = (Panicked, w).
Proof.
  assert (E : DialContext crypto_NodeIDLen BoxPubKeyLen GetNodeID net ctx
                "nodeid" "00/-1" w
              = DialByNodeIDandMask net ctx
                  (zero_array crypto_NodeIDLen) (zero_array crypto_NodeIDLen) w)
    by reflexivity.
  split; [exact E|]. split.
  - rewrite E. apply dial_emits_search.
  - rewrite DialContext_nodeid. reflexivity.
Qed.

(** C5. On the code, a decoded identifier of the wrong length is not
    refused.  With identifiers of 64 bytes, the address [ab], of one
    byte, is dialled at that byte followed by 63 zero bytes, under the
    mask of all ones, and a search is made. *)
Theorem nodeid_wrong_length_dialled BoxPubKeyLen GetNodeID net ctx w :
  hex.DecodeString "ab" = Ok [171] /\
  DialContext crypto_NodeIDLen BoxPubKeyLen GetNodeID net ctx "nodeid" "ab" w
  = DialByNodeIDandMask net ctx (171 :: replicate 63 0)
      (replicate crypto_NodeIDLen 255) w /\
  In (EvSearch (mkConn (171 :: replicate 63 0)
                  (replicate crypto_NodeIDLen 255)))
     (trace (snd (DialContext crypto_NodeIDLen BoxPubKeyLen GetNodeID net ctx
                    "nodeid" "ab" w))).
Proof.
  assert (E : DialContext crypto_NodeIDLen BoxPubKeyLen GetNodeID net ctx
                "nodeid" "ab" w
              = DialByNodeIDandMask net ctx (171 :: replicate 63 0)
                  (replicate crypto_NodeIDLen 255) w)
    by reflexivity.
  split; [reflexivity|]. split; [exact E|].
  rewrite E. apply dial_emits_search.
Qed.

(** * Further properties of the dialer *)

(** ** What a dial does, case by case *)

Lemma effective_deadline_le (ctx : option context.Context) (endSearch : Z) :
  effective_deadline ctx endSearch <= endSearch + 6 * time.Second.
Proof.
  unfold effective_deadline.
  destruct (context.Deadline (default_ctx ctx)); lia.
Qed.

Lemma done_moment_le (ctx : option context.Context) (endSearch : Z) :
  done_moment ctx endSearch <= endSearch + 6 * time.Second.
Proof.
  pose proof (effective_deadline_le ctx endSearch).
  unfold done_moment.
  destruct (context.cancelled_at (default_ctx ctx)); lia.
Qed.

Section DialCases.

Variable net : Network.

(** The three ways a dial ends, with the world it leaves. *)
Lemma dial_cases ctx nodeID nodeMask w :
  let c := mkConn nodeID nodeMask in
  let took := search_took net nodeID nodeMask in
  let es := now w + took in
  let done := done_moment ctx es in
  (exists cause,
      search_result net nodeID nodeMask = Some cause /\
      DialByNodeIDandMask net ctx nodeID nodeMask w =
        (Fail (ErrSearch cause),
         {| now := es;
            trace := trace w ++ [EvNewConn c; EvSearch c; EvClose c] |})) \/
  (search_result net nodeID nodeMask = None /\
   exists h,
     init_after net = Some h /\
     Z.max es (es + h) <= Z.max es done /\
     DialByNodeIDandMask net ctx nodeID nodeMask w =
       (Return c,
        {| now := Z.max es (es + h);
           trace := trace w ++ located_events c took ++
             [EvDebugln "Dial initialized session for:"
                (Z.max es (es + h) - es);
              EvDebugln "Finished dial for:" (Z.max es (es + h) - now w);
              EvCancel] |})) \/
  (search_result net nodeID nodeMask = None /\
   (init_after net = None \/
    exists h, init_after net = Some h /\
              Z.max es done <= Z.max es (es + h)) /\
   DialByNodeIDandMask net ctx nodeID nodeMask w =
     (Fail ErrSessionHandshakeTimeout,
      {| now := Z.max es done;
         trace := trace w ++ located_events c took ++
           [EvClose c; EvCancel] |})).
Proof.
  intros c took es done.
  destruct (search_result net nodeID nodeMask) as [cause|] eqn:Hs.
  - left. exists cause. split; [done|].
    by rewrite (dial_search_failed net ctx nodeID nodeMask w cause Hs).
  - right. rewrite (dial_located net ctx nodeID nodeMask w Hs). cbv zeta.
    fold c took es done.
    destruct (select_at _ _ _ _) as [[[|] t]|] eqn:E.
    + left. split; [done|].
      apply select_at_init_inv in E as (i & Ei & -> & Hle).
      destruct (init_after net) as [h|]; [|discriminate Ei].
      simpl in Ei. injection Ei as <-. exists h. done.
    + right. split; [done|].
      apply select_at_done_inv in E as (-> & Hi). split; [|done].
      destruct (init_after net) as [h|]; [|by left].
      right. exists h. split; [done|].
      destruct Hi as [Hi|(i & [= <-] & Hi)]; [discriminate Hi | done].
    + unfold select_at in E. destruct (init_after net); simpl in E;
        repeat case_match; discriminate E.
Qed.

End DialCases.

Lemma done_moment_le_Done_at (ctx : option context.Context) (es d : Z) :
  context.Done_at (default_ctx ctx) = Some d -> done_moment ctx es <= d.
Proof.
  unfold context.Done_at, done_moment, effective_deadline.
  destruct (context.Deadline (default_ctx ctx)),
    (context.cancelled_at (default_ctx ctx)); intros [= <-]; lia.
Qed.

(** ** The discipline of a dial *)

Section DialProperties.

Variable net : Network.

(** X1. A dial makes one connection and one search for it, first of all;
    it closes the connection once when it fails and never when it
    succeeds; it binds the session and arms the cancel function once when
    the search succeeded and never when it failed. *)
Theorem dial_event_discipline ctx nodeID nodeMask w :
  let c := mkConn nodeID nodeMask in
  let r := DialByNodeIDandMask net ctx nodeID nodeMask w in
  exists rest,
    trace (snd r) = trace w ++ EvNewConn c :: EvSearch c :: rest /\
    count_events is_EvNewConn rest = 0%nat /\
    count_events is_EvSearch rest = 0%nat /\
    count_events is_EvClose rest
    = match fst r with Return _ => 0%nat | _ => 1%nat end /\
    count_events is_EvSetConn rest
    = match search_result net nodeID nodeMask with
      | None => 1%nat
      | Some _ => 0%nat
      end /\
    count_events is_EvCancel rest
    = match search_result net nodeID nodeMask with
      | None => 1%nat
      | Some _ => 0%nat
      end.
Proof.
  intros c r. subst r.
  destruct (dial_cases net ctx nodeID nodeMask w)
    as [(cause & Hs & E)|[(Hs & h & Hi & Hle & E)|(Hs & Hi & E)]];
    fold c in E; rewrite E, Hs; simpl; eexists; (split; [reflexivity|]);
    repeat split.
Qed.

(** X2. A dial returns no sooner than its search has ended and no later
    than six seconds after that, whatever context the caller gave. *)
Theorem dial_time_bounds ctx nodeID nodeMask w :
  let endSearch := now w + search_took net nodeID nodeMask in
  let r := DialByNodeIDandMask net ctx nodeID nodeMask w in
  endSearch <= now (snd r) <= endSearch + 6 * time.Second.
Proof.
  intros endSearch r. subst r endSearch.
  pose proof (done_moment_le ctx
                (now w + search_took net nodeID nodeMask)) as Hd.
  assert (0 <= 6 * time.Second) by (unfold time.Second; lia).
  destruct (dial_cases net ctx nodeID nodeMask w)
    as [(cause & Hs & E)|[(Hs & h & Hi & Hle & E)|(Hs & Hi & E)]];
    rewrite E; simpl; lia.
Qed.

(** X3. A context that is already done when the dial starts (its deadline
    has passed or it has been cancelled) does not stop the search: the
    connection is made and searched for, and the dial returns at the very
    moment the search ends, with the search's error or, when the handshake
    is not complete by then, with the handshake timeout. *)
Theorem dial_expired_context c d nodeID nodeMask w :
  context.Done_at c = Some d ->
  d <= now w ->
  0 <= search_took net nodeID nodeMask ->
  let conn := mkConn nodeID nodeMask in
  let r := DialByNodeIDandMask net (Some c) nodeID nodeMask w in
  (exists rest,
      trace (snd r) = trace w ++ EvNewConn conn :: EvSearch conn :: rest) /\
  now (snd r) = now w + search_took net nodeID nodeMask /\
  ((init_after net = None \/ exists h, init_after net = Some h /\ 0 < h) ->
   fst r = match search_result net nodeID nodeMask with
           | Some cause => Fail (ErrSearch cause)
           | None => Fail ErrSessionHandshakeTimeout
           end).
Proof.
  intros Hd Hdw Ht conn r. subst r.
  pose proof (done_moment_le_Done_at (Some c)
                (now w + search_took net nodeID nodeMask) d Hd) as Hm.
  destruct (dial_cases net (Some c) nodeID nodeMask w)
    as [(cause & Hs & E)|[(Hs & h & Hi & Hle & E)|(Hs & Hi & E)]];
    fold conn in E; rewrite E, Hs; simpl.
  - split; [by eexists|]. done.
  - split; [by eexists|]. split; [lia|].
    intros [H0|(h' & H0 & Hpos)]; rewrite Hi in H0; [discriminate H0|].
    injection H0 as <-. lia.
  - split; [by eexists|]. split; [lia|]. done.
Qed.

(** X4. A cancellation by the caller during the wait for the handshake is
    reported as the handshake timeout: when the target is located and the
    handshake is not complete at the moment of the cancellation, the dial
    closes the connection and returns the timeout error, at the
    cancellation or at the deadline, whichever is first. *)
Theorem dial_cancelled_is_timeout c k nodeID nodeMask w :
  search_result net nodeID nodeMask = None ->
  context.cancelled_at c = Some k ->
  let endSearch := now w + search_took net nodeID nodeMask in
  (init_after net = None \/
   exists h, init_after net = Some h /\
             Z.max endSearch k < Z.max endSearch (endSearch + h)) ->
  let conn := mkConn nodeID nodeMask in
  let r := DialByNodeIDandMask net (Some c) nodeID nodeMask w in
  fst r = Fail ErrSessionHandshakeTimeout /\
  now (snd r)
  = Z.max endSearch (Z.min k (effective_deadline (Some c) endSearch)) /\
  exists pre, trace (snd r) = trace w ++ pre ++ [EvClose conn; EvCancel].
Proof.
  intros Hs Hk endSearch Hi conn r. subst r conn endSearch.
  set (es := now w + search_took net nodeID nodeMask) in *.
  assert (Hm : done_moment (Some c) es
               = Z.min k (effective_deadline (Some c) es)).
  { unfold done_moment. simpl. rewrite Hk. lia. }
  destruct (dial_cases net (Some c) nodeID nodeMask w)
    as [(cause & Hs' & E)|[(_ & h & Hh & Hle & E)|(_ & _ & E)]].
  - rewrite Hs in Hs'. discriminate Hs'.
  - exfalso. fold es in Hle. rewrite Hm in Hle.
    destruct Hi as [H0|(h' & H0 & Hlt)]; rewrite Hh in H0;
      [discriminate H0|].
    injection H0 as <-. lia.
  - fold es in E. rewrite E. simpl. rewrite Hm.
    split; [done|]. split; [done|].
    by exists (located_events (mkConn nodeID nodeMask)
                 (search_took net nodeID nodeMask)).
Qed.

End DialProperties.

(** ** What [hex.DecodeString] accepts *)

Lemma fromHexChar_range (c : ascii) (v : Z) :
  hex.fromHexChar c = Some v -> 0 <= v < 16.
Proof.
  unfold hex.fromHexChar.
  repeat match goal with
         | |- context [if ?b then _ else _] => destruct b eqn:?
         end; intros [= <-];
    repeat match goal with
           | H : _ && _ = true |- _ => apply andb_true_iff in H as [? ?]
           | H : (_ <=? _) = true |- _ => apply Z.leb_le in H
           end; lia.
Qed.

Lemma hex_byte (a b : Z) :
  0 <= a < 16 -> 0 <= b < 16 -> is_byte (Z.lor (Z.shiftl a 4) b).
Proof.
  intros Ha Hb. apply is_byte_lor; unfold is_byte.
  - rewrite Z.shiftl_mul_pow2 by lia. change (2 ^ 4) with 16. lia.
  - lia.
Qed.

(** A decoded string had two hexadecimal digits for each byte. *)
Lemma Decode_Ok_inv (s : string) (bs : list Z) :
  hex.Decode s = Ok bs ->
  String.length s = (2 * length bs)%nat /\ all_hex s = true /\
  Forall is_byte bs.
Proof.
  revert bs. induction s as [| c | c d s IH] using string_pair_ind;
    intros bs H.
  - injection H as <-. by repeat split.
  - simpl in H. destruct (hex.fromHexChar c); discriminate H.
  - cbn [hex.Decode] in H.
    destruct (hex.fromHexChar c) as [a|] eqn:Ec; [|discriminate H].
    destruct (hex.fromHexChar d) as [b|] eqn:Ed; [|discriminate H].
    destruct (hex.Decode s) as [bs'|] eqn:Es; [|discriminate H].
    injection H as <-.
    destruct (IH bs' eq_refl) as (L & A & B).
    cbn [String.length all_hex length]. rewrite Ec, Ed.
    split; [lia|]. split; [done|].
    constructor; [|done].
    apply hex_byte; by eapply fromHexChar_range.
Qed.

(** A string of an even number of hexadecimal digits is decoded. *)
Lemma Decode_Ok_intro (s : string) (n : nat) :
  String.length s = (2 * n)%nat -> all_hex s = true ->
  exists bs, hex.Decode s = Ok bs /\ length bs = n.
Proof.
  revert n. induction s as [| c | c d s IH] using string_pair_ind;
    intros n L A.
  - exists []. simpl in L. split; [done | simpl; lia].
  - simpl in L. lia.
  - cbn [String.length] in L. cbn [all_hex] in A.
    destruct (hex.fromHexChar c) as [a|] eqn:Ec; [|discriminate A].
    destruct (hex.fromHexChar d) as [b|] eqn:Ed; [|discriminate A].
    destruct n as [|n]; [lia|].
    destruct (IH n) as (bs & E & Lb); [lia | done |].
    eexists. cbn [hex.Decode]. rewrite Ec, Ed, E.
    split; [reflexivity|]. simpl. by rewrite Lb.
Qed.

Section KeyScheme.

Variable NodeIDLen : nat.
Variable BoxPubKeyLen : nat.
Variable GetNodeID : BoxPubKey -> NodeID.
Variable net : Network.

(** X5. An address of the key scheme is dialled exactly when it consists
    of twice as many hexadecimal digits (of either case) as a public key
    has bytes: then the dial is the one by the decoded key; any other
    address fails with an address error and leaves the world untouched. *)
Theorem key_scheme_acceptance ctx network address :
  network = "http"%string \/ network = "curve25519"%string ->
  (String.length address = (2 * BoxPubKeyLen)%nat /\ all_hex address = true ->
   exists key,
     hex.DecodeString address = Ok key /\
     length key = BoxPubKeyLen /\ Forall is_byte key /\
     DialContext NodeIDLen BoxPubKeyLen GetNodeID net ctx network address
     = DialByPublicKey NodeIDLen GetNodeID net ctx key) /\
  (~ (String.length address = (2 * BoxPubKeyLen)%nat /\
      all_hex address = true) ->
   forall w, exists e,
     DialContext NodeIDLen BoxPubKeyLen GetNodeID net ctx network address w
     = (Fail e, w) /\
     kind_of e = InvalidAddress).
Proof.
  intros Hn. rewrite DialContext_key by done. split.
  - intros [L A].
    destruct (Decode_Ok_intro address BoxPubKeyLen L A) as (key & E & Lk).
    exists key. unfold hex.DecodeString. rewrite E.
    split; [done|]. split; [done|].
    split; [by apply (Decode_Ok_inv address key)|].
    rewrite <- Lk, Nat.eqb_refl. simpl.
    rewrite copy_full; [done|].
    unfold zero_array. by rewrite length_replicate.
  - intros Hno w. unfold hex.DecodeString.
    destruct (hex.Decode address) as [dest|e] eqn:E.
    + destruct (Decode_Ok_inv address dest E) as (L & A & _).
      destruct (Nat.eqb_spec (length dest) BoxPubKeyLen) as [Ld|Ld]; simpl.
      * exfalso. apply Hno. split; [lia | done].
      * by exists ErrInvalidKeyLength.
    + exists e. split; [done|]. by eapply Decode_error_kind.
Qed.

End KeyScheme.

(** ** The bytes of a prefix mask *)

Lemma byte_ext (a b : Z) :
  is_byte a -> is_byte b ->
  (forall k, 0 <= k < 8 -> Z.testbit a k = Z.testbit b k) -> a = b.
Proof.
  unfold is_byte. intros Ha Hb H. apply Z.bits_inj'. intros k Hk.
  destruct (Z.lt_ge_cases k 8) as [Hlt|Hge]; [apply H; lia|].
  assert (P : 2 ^ 8 <= 2 ^ k) by (apply Z.pow_le_mono_r; lia).
  assert (F : forall x, 0 <= x < 256 -> Z.testbit x k = false).
  { intros x Hx. apply Z.testbit_false; [lia|].
    by rewrite Z.div_small by lia. }
  by rewrite !F.
Qed.

Lemma mask_byte_bit (m : list Z) (j : nat) (k : Z) :
  0 <= k < 8 ->
  Z.testbit (nth j m 0) k = mask_bit m (8 * Z.of_nat j + 7 - k).
Proof.
  intros Hk. unfold mask_bit.
  replace ((8 * Z.of_nat j + 7 - k) / 8) with (Z.of_nat j) by div_lia.
  replace ((8 * Z.of_nat j + 7 - k) mod 8) with (7 - k) by div_lia.
  rewrite Nat2Z.id. f_equal. lia.
Qed.

Lemma testbit_high_bits (r k : Z) :
  0 < r < 8 -> 0 <= k < 8 -> Z.testbit (256 - 2 ^ r) k = (r <=? k).
Proof.
  intros Hr Hk.
  assert (E : 256 - 2 ^ r = Z.shiftl (Z.ones (8 - r)) r).
  { rewrite Z.shiftl_mul_pow2, Z.ones_equiv by lia.
    rewrite <- Z.sub_1_r, Z.mul_sub_distr_r, <- Z.pow_add_r by lia.
    replace (8 - r + r) with 8 by lia. lia. }
  rewrite E, Z.shiftl_spec by lia.
  destruct (Z.leb_spec r k).
  - apply Z.ones_spec_low. lia.
  - apply Z.testbit_neg_r. lia.
Qed.

(** The bytes of a mask whose first [p] bits are set: 0xFF before the
    byte of bit [p], 0x00 after it, and the high bits of that byte. *)
Lemma prefix_mask_byte (len : nat) (p : Z) (m : list Z) (j : nat) :
  length m = len -> Forall is_byte m ->
  (forall i, 0 <= i < 8 * Z.of_nat len -> mask_bit m i = (i <? p)) ->
  (j < len)%nat ->
  m !! j = Some (if 8 * (Z.of_nat j + 1) <=? p then 255
                 else if p <=? 8 * Z.of_nat j then 0
                 else 256 - 2 ^ (8 * (Z.of_nat j + 1) - p)).
Proof.
  intros L B S Hj.
  destruct (lookup_lt_is_Some_2 m j) as [b Eb]; [lia|].
  rewrite Eb. f_equal.
  assert (Hb : is_byte b) by (eapply Forall_lookup_1; eauto).
  assert (Hbit : forall k, 0 <= k < 8 ->
            Z.testbit b k = (8 * Z.of_nat j + 7 - k <? p)).
  { intros k Hk. rewrite <- S by lia. rewrite <- mask_byte_bit by done.
    by rewrite (nth_lookup_Some m j 0 b Eb). }
  destruct (Z.leb_spec (8 * (Z.of_nat j + 1)) p) as [H1|H1];
    [|destruct (Z.leb_spec p (8 * Z.of_nat j)) as [H2|H2]].
  - apply byte_ext; [done | unfold is_byte; lia |].
    intros k Hk. rewrite Hbit by done.
    change 255 with (Z.ones 8). rewrite Z.ones_spec_low by lia.
    apply Z.ltb_lt. lia.
  - apply byte_ext; [done | unfold is_byte; lia |].
    intros k Hk. rewrite Hbit, Z.testbit_0_l by done.
    apply Z.ltb_ge. lia.
  - assert (P : 2 <= 2 ^ (8 * (Z.of_nat j + 1) - p) <= 128).
    { split.
      - change 2 with (2 ^ 1) at 1. apply Z.pow_le_mono_r; lia.
      - change 128 with (2 ^ 7). apply Z.pow_le_mono_r; lia. }
    apply byte_ext; [done | unfold is_byte; lia |].
    intros k Hk. rewrite Hbit, testbit_high_bits by lia.
    apply eq_true_iff_eq. rewrite Z.ltb_lt, Z.leb_le. lia.
Qed.

Lemma prefix_loop_full (len : nat) :
  prefix_loop (Z.to_nat (8 * Z.of_nat len)) 0 (zero_array len)
  = Some (replicate len 255).
Proof.
  destruct (prefix_loop_zero len (8 * Z.of_nat len)) as (m & E & L & B & S);
    [lia|].
  rewrite E. f_equal. apply list_eq. intros j.
  destruct (decide (j < len)%nat) as [Hj|Hj].
  - rewrite (prefix_mask_byte len (8 * Z.of_nat len) m j L B S Hj).
    rewrite lookup_replicate_2 by done.
    destruct (Z.leb_spec (8 * (Z.of_nat j + 1)) (8 * Z.of_nat len));
      [done | lia].
  - rewrite lookup_ge_None_2 by lia. symmetry.
    apply lookup_replicate_None. lia.
Qed.

Section PrefixMask.

Variable NodeIDLen : nat.
Variable BoxPubKeyLen : nat.
Variable GetNodeID : BoxPubKey -> NodeID.
Variable net : Network.

(** X6. The mask of an address [h/s] with a prefix count [p] that fits
    is, byte by byte: 0xFF for the bytes wholly inside the prefix, 0x00
    for the bytes wholly outside, and for the byte the prefix ends in,
    its high bits, 256 - 2^(bits left out of that byte). *)
Theorem nodeid_prefix_mask_bytes ctx h s dest p :
  hex.DecodeString h = Ok dest ->
  strconv.Atoi s = Ok p ->
  0 <= p <= 8 * Z.of_nat NodeIDLen ->
  exists nodeMask,
    DialContext NodeIDLen BoxPubKeyLen GetNodeID net ctx
      "nodeid" (h ++ String "/" s)
    = DialByNodeIDandMask net ctx (copy (zero_array NodeIDLen) dest) nodeMask /\
    length nodeMask = NodeIDLen /\
    forall j, (j < NodeIDLen)%nat ->
      nodeMask !! j =
        Some (if 8 * (Z.of_nat j + 1) <=? p then 255
              else if p <=? 8 * Z.of_nat j then 0
              else 256 - 2 ^ (8 * (Z.of_nat j + 1) - p)).
Proof.
  intros Hh Hs Hp.
  destruct (prefix_loop_zero NodeIDLen p Hp) as (m & Em & Lm & Bm & Sm).
  exists m. split; [|split; [done|]].
  - rewrite DialContext_nodeid. cbv zeta.
    rewrite Split_append by (by eapply Decode_no_slash).
    rewrite Split_no_sep by (by eapply Atoi_no_slash). simpl.
    by rewrite Hs, Hh, Em.
  - intros j Hj. by apply (prefix_mask_byte NodeIDLen).
Qed.

(** X7. An address with the prefix count of all the bits of an identifier
    is dialled exactly as the address without a prefix count. *)
Theorem nodeid_full_prefix_is_exact ctx h s dest :
  hex.DecodeString h = Ok dest ->
  strconv.Atoi s = Ok (8 * Z.of_nat NodeIDLen) ->
  DialContext NodeIDLen BoxPubKeyLen GetNodeID net ctx
    "nodeid" (h ++ String "/" s)
  = DialContext NodeIDLen BoxPubKeyLen GetNodeID net ctx "nodeid" h.
Proof.
  intros Hh Hs.
  rewrite !DialContext_nodeid. cbv zeta.
  rewrite Split_append by (by eapply Decode_no_slash).
  rewrite !Split_no_sep by
    (first [by eapply Decode_no_slash | by eapply Atoi_no_slash]).
  simpl. by rewrite Hs, Hh, prefix_loop_full, fill_ones_zero_array.
Qed.

End PrefixMask.

(** ** Where the resolver stops and where it dials *)

Lemma copy_zero_bytes (n : nat) (src : list Z) :
  Forall is_byte src -> Forall is_byte (copy (zero_array n) src).
Proof.
  intros H. unfold copy. apply Forall_app. split.
  - by apply Forall_take.
  - apply Forall_drop, zero_array_bytes.
Qed.

Lemma trace_grows (w w' : World) (evs : list Event) :
  trace w' = trace w ++ evs -> evs <> [] -> w' <> w.
Proof.
  intros E Hne ->. apply Hne.
  apply (f_equal length) in E. rewrite length_app in E.
  destruct evs; [done | simpl in E; lia].
Qed.

Section Resolver.

Variable NodeIDLen : nat.
Variable BoxPubKeyLen : nat.
Variable GetNodeID : BoxPubKey -> NodeID.
Variable net : Network.

(** A dial of a target starts with the connection and its search, and
    ends with the connection or with an error of the search or of the
    handshake. *)
Lemma dial_summary ctx nodeID nodeMask w :
  let c := mkConn nodeID nodeMask in
  let r := DialByNodeIDandMask net ctx nodeID nodeMask w in
  (exists rest, trace (snd r) = trace w ++ EvNewConn c :: EvSearch c :: rest) /\
  (fst r = Return c \/
   exists e, fst r = Fail e /\
             (kind_of e = SearchFailed \/ kind_of e = HandshakeTimedOut)).
Proof.
  intros c r. subst r.
  destruct (dial_cases net ctx nodeID nodeMask w)
    as [(cause & Hs & E)|[(Hs & h & Hi & Hle & E)|(Hs & Hi & E)]];
    fold c in E; rewrite E; simpl.
  - split; [by eexists|]. right. eexists. split; [done|]. by left.
  - split; [by eexists|]. by left.
  - split; [by eexists|]. right. eexists. split; [done|]. by right.
Qed.

Local Abbreviation DialContext :=
  (DialContext NodeIDLen BoxPubKeyLen GetNodeID net).

(** X8. A call of [DialContext] never blocks.  It leaves the world as it
    found it exactly when it panics or fails with an address or scheme
    error; otherwise it has made a connection and searched for it. *)
Theorem resolver_stops_untouched ctx network address w :
  let r := DialContext ctx network address w in
  fst r <> Blocked /\
  (snd r = w <->
   (fst r = Panicked \/
    exists e, fst r = Fail e /\
              (kind_of e = InvalidAddress \/ kind_of e = UnsupportedScheme))) /\
  (snd r <> w ->
   exists c rest, trace (snd r) = trace w ++ EvNewConn c :: EvSearch c :: rest).
Proof.
  intros r. subst r.
  destruct (DialContext_cases NodeIDLen BoxPubKeyLen GetNodeID net
              ctx network address w)
    as [(nodeID & nodeMask & E)|[Hw Hr]].
  - rewrite E.
    destruct (dial_summary ctx nodeID nodeMask w) as [(rest & Ht) Hf].
    cbv zeta in Ht, Hf.
    assert (Hne : snd (DialByNodeIDandMask net ctx nodeID nodeMask w) <> w)
      by (eapply trace_grows; [exact Ht | done]).
    split; [|split].
    + destruct Hf as [-> | (e & -> & _)]; discriminate.
    + split; [done|].
      intros [Hp | (e & He & Hk)].
      * destruct Hf as [Hf | (e & Hf & _)]; rewrite Hf in Hp; discriminate Hp.
      * destruct Hf as [Hf | (e' & Hf & Hk')]; rewrite Hf in He;
          [discriminate He|].
        injection He as <-.
        destruct Hk as [Hk|Hk], Hk' as [Hk'|Hk']; rewrite Hk in Hk';
          discriminate Hk'.
    + intros _. by eauto.
  - split; [|split].
    + destruct Hr as [-> | (e & -> & _)]; discriminate.
    + split; [done | done].
    + done.
Qed.

(** X9. [DialContext] panics exactly on an identifier-scheme address
    with one separator whose first token is hexadecimal and whose second
    token is a number above the number of bits of an identifier; on no
    other input does it panic. *)
Theorem DialContext_panics_only ctx network address w :
  fst (DialContext ctx network address w) = Panicked <->
  (network = "nodeid"%string /\ count_sep address "/" = 1%nat /\
   exists l dest,
     strconv.Atoi (nth 1 (strings.Split address "/") EmptyString) = Ok l /\
     hex.DecodeString (before_sep address "/") = Ok dest /\
     8 * Z.of_nat NodeIDLen < l).
Proof.
  split.
  - destruct (String.eqb_spec network "http") as [->|H1];
      [|destruct (String.eqb_spec network "curve25519") as [->|H2];
        [|destruct (String.eqb_spec network "nodeid") as [->|H3]]].
    + rewrite DialContext_key by auto.
      destruct (hex.DecodeString address); [|discriminate].
      destruct (negb _); [discriminate|].
      rewrite DialByPublicKey_ones. intros Hp.
      destruct (dial_summary ctx (GetNodeID (copy (zero_array BoxPubKeyLen) a))
                  (replicate NodeIDLen 255) w) as [_ [Hf | (e & Hf & _)]];
        rewrite Hf in Hp; discriminate Hp.
    + rewrite DialContext_key by auto.
      destruct (hex.DecodeString address); [|discriminate].
      destruct (negb _); [discriminate|].
      rewrite DialByPublicKey_ones. intros Hp.
      destruct (dial_summary ctx (GetNodeID (copy (zero_array BoxPubKeyLen) a))
                  (replicate NodeIDLen 255) w) as [_ [Hf | (e & Hf & _)]];
        rewrite Hf in Hp; discriminate Hp.
    + rewrite DialContext_nodeid. cbv zeta.
      rewrite Split_length, Split_first.
      destruct (Nat.eqb_spec (S (count_sep address "/")) 2) as [Hc|Hc].
      * destruct (strconv.Atoi _) as [l|] eqn:Ea; [|discriminate].
        destruct (hex.DecodeString _) as [dest|] eqn:Ed; [|discriminate].
        destruct (prefix_loop _ _ _) as [m|] eqn:Ep.
        -- intros Hp.
           destruct (dial_summary ctx (copy (zero_array NodeIDLen) dest) m w)
             as [_ [Hf | (e & Hf & _)]]; rewrite Hf in Hp; discriminate Hp.
        -- intros _. split; [done|]. split; [lia|].
           exists l, dest. split; [done|]. split; [done|].
           destruct (Z.lt_ge_cases (8 * Z.of_nat NodeIDLen) l) as [|Hle];
             [done|].
           destruct (Z.le_gt_cases l 0) as [H0|H0].
           ++ rewrite prefix_loop_nonpositive in Ep by done. discriminate Ep.
           ++ destruct (prefix_loop_zero NodeIDLen l) as (m & Em & _); [lia|].
              rewrite Em in Ep. discriminate Ep.
      * destruct (hex.DecodeString _) as [dest|] eqn:Ed; [|discriminate].
        intros Hp.
        destruct (dial_summary ctx (copy (zero_array NodeIDLen) dest)
                    (fill_ones (zero_array NodeIDLen)) w)
          as [_ [Hf | (e & Hf & _)]]; rewrite Hf in Hp; discriminate Hp.
    + rewrite DialContext_default by done. discriminate.
  - intros (-> & Hc & l & dest & Ha & Hd & Hl).
    rewrite DialContext_nodeid. cbv zeta.
    rewrite Split_length, Split_first, Hc. simpl Nat.eqb. cbv iota.
    by rewrite Ha, Hd, prefix_loop_out_of_range.
Qed.

(** X10. Every target that the identifier scheme hands to the search is
    well formed: its identifier and its mask have the length of an
    identifier and hold bytes, and the identifier is the decoded first
    token of the address, cut to that length or filled up with zero
    bytes. *)
Theorem nodeid_target_well_formed ctx address w c rest :
  trace (snd (DialContext ctx "nodeid" address w))
  = trace w ++ EvNewConn c :: rest ->
  length (conn_nodeID c) = NodeIDLen /\
  length (conn_nodeMask c) = NodeIDLen /\
  Forall is_byte (conn_nodeID c) /\
  Forall is_byte (conn_nodeMask c) /\
  exists dest,
    hex.DecodeString (before_sep address "/") = Ok dest /\
    forall i, (i < NodeIDLen)%nat ->
      conn_nodeID c !! i = Some (default 0 (dest !! i)).
Proof.
  assert (Hstop : forall (o : outcome Conn),
            trace (snd (o, w)) = trace w ++ EvNewConn c :: rest -> False).
  { intros o H. simpl in H. apply (f_equal length) in H.
    rewrite length_app in H. simpl in H. lia. }
  assert (Hdial : forall dest m,
            hex.DecodeString (before_sep address "/") = Ok dest ->
            length m = NodeIDLen -> Forall is_byte m ->
            trace (snd (DialByNodeIDandMask net ctx
                          (copy (zero_array NodeIDLen) dest) m w))
            = trace w ++ EvNewConn c :: rest ->
            length (conn_nodeID c) = NodeIDLen /\
            length (conn_nodeMask c) = NodeIDLen /\
            Forall is_byte (conn_nodeID c) /\
            Forall is_byte (conn_nodeMask c) /\
            exists dest,
              hex.DecodeString (before_sep address "/") = Ok dest /\
              forall i, (i < NodeIDLen)%nat ->
                conn_nodeID c !! i = Some (default 0 (dest !! i))).
  { intros dest m Hd Lm Bm Ht.
    destruct (dial_summary ctx (copy (zero_array NodeIDLen) dest) m w)
      as [(rest' & Ht') _]. cbv zeta in Ht'.
    rewrite Ht' in Ht. apply app_inv_head in Ht. injection Ht as <- _.
    simpl. split.
    { rewrite copy_length. apply length_replicate. }
    split; [done|]. split.
    { apply copy_zero_bytes. by apply (Decode_Ok_inv _ _ Hd). }
    split; [done|].
    exists dest. split; [done|]. intros i Hi. by apply copy_zero_lookup. }
  rewrite DialContext_nodeid. cbv zeta. rewrite Split_first.
  destruct (length _ =? 2)%nat.
  - destruct (strconv.Atoi _) as [l|e] eqn:Ea; [|by intros H; destruct (Hstop _ H)].
    destruct (hex.DecodeString _) as [dest|e] eqn:Ed;
      [|by intros H; destruct (Hstop _ H)].
    destruct (prefix_loop _ _ _) as [m|] eqn:Ep;
      [|by intros H; destruct (Hstop _ H)].
    apply Hdial; [done| |].
    + destruct (Z.le_gt_cases l 0) as [H0|H0].
      * rewrite prefix_loop_nonpositive in Ep by done. injection Ep as <-.
        apply length_replicate.
      * destruct (Z.lt_ge_cases (8 * Z.of_nat NodeIDLen) l) as [Hl|Hl].
        -- rewrite prefix_loop_out_of_range in Ep by done. discriminate Ep.
        -- destruct (prefix_loop_zero NodeIDLen l) as (m' & Em & Lm & _);
             [lia|]. rewrite Em in Ep. by injection Ep as <-.
    + destruct (Z.le_gt_cases l 0) as [H0|H0].
      * rewrite prefix_loop_nonpositive in Ep by done. injection Ep as <-.
        apply zero_array_bytes.
      * destruct (Z.lt_ge_cases (8 * Z.of_nat NodeIDLen) l) as [Hl|Hl].
        -- rewrite prefix_loop_out_of_range in Ep by done. discriminate Ep.
        -- destruct (prefix_loop_zero NodeIDLen l) as (m' & Em & _ & Bm & _);
             [lia|]. rewrite Em in Ep. by injection Ep as <-.
  - destruct (hex.DecodeString _) as [dest|e] eqn:Ed;
      [|by intros H; destruct (Hstop _ H)].
    rewrite fill_ones_zero_array.
    apply Hdial; [done | apply length_replicate |].
    apply Forall_replicate. unfold is_byte. lia.
Qed.

End Resolver.

(** ** The caller's context and the time of the search *)

Section CallerContext.

Variable net : Network.

(** X11. A context of the caller can only shorten the wait for the
    handshake: a dial that returns a connection under some context also
    returns it under the nil context. *)
Theorem caller_context_only_shortens c nodeID nodeMask w conn :
  fst (DialByNodeIDandMask net (Some c) nodeID nodeMask w) = Return conn ->
  fst (DialByNodeIDandMask net None nodeID nodeMask w) = Return conn.
Proof.
  destruct (search_result net nodeID nodeMask) as [cause|] eqn:Hs.
  - rewrite (dial_search_failed net (Some c) nodeID nodeMask w cause Hs).
    discriminate.
  - rewrite !(dial_located net _ nodeID nodeMask w Hs). cbv zeta.
    set (es := now w + search_took net nodeID nodeMask).
    pose proof (done_moment_le (Some c) es) as Hc.
    assert (Hn : done_moment None es = es + 6 * time.Second) by done.
    destruct (init_after net) as [h|]; simpl option_map.
    + destruct (select_at es (Some (es + h)) (Some (done_moment (Some c) es))
                  (select_init_if_both net)) as [[[|] t]|] eqn:E;
        [|discriminate|discriminate].
      intros [= <-].
      apply select_at_init_cases in E.
      rewrite select_at_init_intro; [done|].
      rewrite Hn. destruct E as [E|[E Hb]]; [left; lia|].
      destruct (Z.eq_dec (Z.max es (es + h))
                  (Z.max es (es + 6 * time.Second))) as [Q|Q];
        [right; done | left; lia].
    + simpl. discriminate.
Qed.

End CallerContext.

(** X12. The outcome of a dial under the nil context does not depend on
    the moment the dial starts nor on how long the search takes: on two
    networks that agree on the result of the search, on the delay of the
    handshake and on the choice of a tie, two dials of a target end in the
    same way. *)
Theorem plain_dial_outcome_anchored net net' nodeID nodeMask w w' :
  search_result net nodeID nodeMask = search_result net' nodeID nodeMask ->
  init_after net = init_after net' ->
  select_init_if_both net = select_init_if_both net' ->
  fst (DialByNodeIDandMask net None nodeID nodeMask w)
  = fst (DialByNodeIDandMask net' None nodeID nodeMask w').
Proof.
  intros Hs Hi Hb.
  destruct (search_result net' nodeID nodeMask) as [cause|] eqn:Hs'.
  - rewrite (dial_search_failed net None nodeID nodeMask w cause Hs).
    by rewrite (dial_search_failed net' None nodeID nodeMask w' cause Hs').
  - rewrite (dial_located net None nodeID nodeMask w Hs).
    rewrite (dial_located net' None nodeID nodeMask w' Hs'). cbv zeta.
    rewrite Hi, Hb.
    set (es := now w + search_took net nodeID nodeMask).
    set (es' := now w' + search_took net' nodeID nodeMask).
    assert (Hn : done_moment None es = es + 6 * time.Second) by done.
    assert (Hn' : done_moment None es' = es' + 6 * time.Second) by done.
    rewrite Hn, Hn'.
    assert (Hpos : 0 < 6 * time.Second) by (unfold time.Second; lia).
    destruct (init_after net') as [h|]; [|done].
    unfold select_at. simpl option_map. cbv iota beta.
    destruct (Z.ltb_spec (Z.max es (es + h)) (Z.max es (es + 6 * time.Second)));
      destruct (Z.ltb_spec (Z.max es' (es' + h))
                  (Z.max es' (es' + 6 * time.Second))); try lia; [done|].
    destruct (Z.ltb_spec (Z.max es (es + 6 * time.Second)) (Z.max es (es + h)));
      destruct (Z.ltb_spec (Z.max es' (es' + 6 * time.Second))
                  (Z.max es' (es' + h))); try lia; [done|].
    by destruct (select_init_if_both net').
Qed.

(** ** The further properties at concrete inputs *)

Lemma dial_expired_context_witness :
  context.Done_at sample_expired_ctx = Some 0 /\
  0 <= now sample_world /\
  0 <= search_took sample_net [] [] /\
  now (snd (DialByNodeIDandMask sample_net (Some sample_expired_ctx) [] []
              sample_world)) = 100000000 /\
  fst (DialByNodeIDandMask sample_net (Some sample_expired_ctx) [] []
         sample_world) = Fail ErrSessionHandshakeTimeout.
Proof.
  assert (H1 : context.Done_at sample_expired_ctx = Some 0) by reflexivity.
  assert (H2 : 0 <= now sample_world) by (simpl; lia).
  assert (H3 : 0 <= search_took sample_net [] []) by (simpl; lia).
  pose proof (dial_expired_context sample_net sample_expired_ctx 0 [] []
                sample_world H1 H2 H3) as H.
  cbv zeta in H. destruct H as (_ & Hnow & Hfail).
  split; [exact H1|]. split; [exact H2|]. split; [exact H3|].
  split; [exact Hnow|].
  apply Hfail. right. exists 50000000. split; [reflexivity | lia].
Defined.

Lemma dial_cancelled_is_timeout_witness :
  search_result sample_net [] [] = None /\
  context.cancelled_at sample_cancelled_ctx = Some 120000000 /\
  fst (DialByNodeIDandMask sample_net (Some sample_cancelled_ctx) [] []
         sample_world) = Fail ErrSessionHandshakeTimeout /\
  now (snd (DialByNodeIDandMask sample_net (Some sample_cancelled_ctx) [] []
              sample_world)) = 120000000.
Proof.
  assert (Hi : init_after sample_net = None \/
               exists h, init_after sample_net = Some h /\
                 Z.max (now sample_world + search_took sample_net [] [])
                   120000000
                 < Z.max (now sample_world + search_took sample_net [] [])
                     (now sample_world + search_took sample_net [] [] + h)).
  { right. exists 50000000. split; [reflexivity | simpl; lia]. }
  pose proof (dial_cancelled_is_timeout sample_net sample_cancelled_ctx
                120000000 [] [] sample_world eq_refl eq_refl Hi) as H.
  cbv zeta in H. destruct H as (Hf & Hn & _).
  split; [reflexivity|]. split; [reflexivity|].
  split; [exact Hf|]. rewrite Hn. reflexivity.
Defined.

Lemma key_scheme_acceptance_witness :
  ("curve25519" = "http" \/ "curve25519" = "curve25519")%string /\
  String.length doc_address = (2 * crypto_BoxPubKeyLen)%nat /\
  all_hex doc_address = true /\
  exists key,
    hex.DecodeString doc_address = Ok key /\
    length key = crypto_BoxPubKeyLen /\ Forall is_byte key /\
    sample_DialContext None "curve25519" doc_address
    = DialByPublicKey crypto_NodeIDLen sample_GetNodeID sample_net None key.
Proof.
  assert (Hn : ("curve25519" = "http" \/ "curve25519" = "curve25519")%string)
    by (right; reflexivity).
  assert (Hl : String.length doc_address = (2 * crypto_BoxPubKeyLen)%nat)
    by reflexivity.
  assert (Hh : all_hex doc_address = true) by reflexivity.
  split; [exact Hn|]. split; [exact Hl|]. split; [exact Hh|].
  exact (proj1 (key_scheme_acceptance crypto_NodeIDLen crypto_BoxPubKeyLen
                  sample_GetNodeID sample_net None "curve25519" doc_address
                  Hn) (conj Hl Hh)).
Defined.

Lemma nodeid_prefix_mask_bytes_witness :
  hex.DecodeString "ab" = Ok [171] /\
  strconv.Atoi "12" = Ok 12 /\
  0 <= 12 <= 8 * Z.of_nat crypto_NodeIDLen /\
  exists nodeMask,
    sample_DialContext None "nodeid" "ab/12"
    = DialByNodeIDandMask sample_net None
        (copy (zero_array crypto_NodeIDLen) [171]) nodeMask /\
    length nodeMask = crypto_NodeIDLen /\
    forall j, (j < crypto_NodeIDLen)%nat ->
      nodeMask !! j =
        Some (if 8 * (Z.of_nat j + 1) <=? 12 then 255
              else if 12 <=? 8 * Z.of_nat j then 0
              else 256 - 2 ^ (8 * (Z.of_nat j + 1) - 12)).
Proof.
  assert (Hp : 0 <= 12 <= 8 * Z.of_nat crypto_NodeIDLen)
    by (unfold crypto_NodeIDLen; lia).
  split; [reflexivity|]. split; [reflexivity|]. split; [exact Hp|].
  exact (nodeid_prefix_mask_bytes crypto_NodeIDLen crypto_BoxPubKeyLen
           sample_GetNodeID sample_net None "ab" "12" [171] 12
           eq_refl eq_refl Hp).
Defined.

Lemma nodeid_full_prefix_is_exact_witness :
  hex.DecodeString "ab" = Ok [171] /\
  strconv.Atoi "512" = Ok (8 * Z.of_nat crypto_NodeIDLen) /\
  sample_DialContext None "nodeid" "ab/512"
  = sample_DialContext None "nodeid" "ab".
Proof.
  split; [reflexivity|]. split; [reflexivity|].
  exact (nodeid_full_prefix_is_exact crypto_NodeIDLen crypto_BoxPubKeyLen
           sample_GetNodeID sample_net None "ab" "512" [171]
           eq_refl eq_refl).
Defined.

Lemma nodeid_target_well_formed_witness :
  exists c rest,
    trace (snd (sample_DialContext None "nodeid" "ab/12" sample_world))
    = trace sample_world ++ EvNewConn c :: rest /\
    length (conn_nodeID c) = crypto_NodeIDLen /\
    length (conn_nodeMask c) = crypto_NodeIDLen.
Proof.
  eexists. eexists.
  match goal with
  | |- ?A /\ _ => assert (H : A) by (lazy; reflexivity)
  end.
  split; [exact H|].
  pose proof (nodeid_target_well_formed crypto_NodeIDLen crypto_BoxPubKeyLen
                sample_GetNodeID sample_net None "ab/12" sample_world _ _ H)
    as (L1 & L2 & _).
  split; [exact L1 | exact L2].
Defined.

Lemma caller_context_only_shortens_witness :
  fst (DialByNodeIDandMask sample_net
         (Some {| context.Deadline := Some 1000000000;
                  context.cancelled_at := None |}) [] [] sample_world)
  = Return (mkConn [] []) /\
  fst (DialByNodeIDandMask sample_net None [] [] sample_world)
  = Return (mkConn [] []).
Proof.
  assert (H : fst (DialByNodeIDandMask sample_net
                     (Some {| context.Deadline := Some 1000000000;
                              context.cancelled_at := None |}) [] []
                     sample_world)
              = Return (mkConn [] [])) by reflexivity.
  split; [exact H|].
  exact (caller_context_only_shortens sample_net _ [] [] sample_world _ H).
Defined.

Lemma plain_dial_outcome_anchored_witness :
  search_result sample_net [] []
  = search_result
      {| search_result := fun _ _ => None;
         search_took := fun _ _ => 30000000000;
         init_after := Some 50000000;
         select_init_if_both := false |} [] [] /\
  fst (DialByNodeIDandMask sample_net None [] [] sample_world)
  = fst (DialByNodeIDandMask
           {| search_result := fun _ _ => None;
              search_took := fun _ _ => 30000000000;
              init_after := Some 50000000;
              select_init_if_both := false |} None [] []
           {| now := 7; trace := [] |}).
Proof.
  split; [reflexivity|].
  exact (plain_dial_outcome_anchored sample_net
           {| search_result := fun _ _ => None;
              search_took := fun _ _ => 30000000000;
              init_after := Some 50000000;
              select_init_if_both := false |} [] [] sample_world
           {| now := 7; trace := [] |} eq_refl eq_refl eq_refl).
Defined.
